(** * SolarOvenLogger: the logging sketch [TempratureMonitorSolarOvens.ino]

    A shallow embedding of the sketch's [setup] and [loop] and of the
    EEPROM layout they rely on, followed by the properties of the store,
    the anomaly check, the session logic and the report.

    Target conventions (AVR Arduino, the boards whose ADC delivers the
    0..1023 readings the sketch divides 1023.0 by):
    - [int] is 16 bits wide, [long] and [unsigned long] are 32 bits wide;
    - [EEPROM.get] and [EEPROM.put] on an [int] move two bytes, low byte
      at the lower address;
    - [float] and [double] are one and the same type.

    Machine integers are values of [Z] and every operation writes its
    wrap-around out.  The Serial port is the list of [print] and [println]
    calls made.  The readings of the pins and of [millis] are inputs;
    [delay] only lets time pass and shows in the later readings of
    [millis]. *)

From Stdlib Require Import ZArith List String Bool Lia QArith.
Import ListNotations.
Local Open Scope Z_scope.

(** ** Machine integers *)

Module Int.

(** Value of the low 16 bits read as a signed [int]. *)
Definition to_int (x : Z) : Z := (x + 32768) mod 65536 - 32768.

(** Value of the low 16 bits read as an [unsigned int] / [uint16_t]. *)
Definition to_uint (x : Z) : Z := x mod 65536.

(** Value of the low 32 bits read as a signed [long]. *)
Definition to_long (x : Z) : Z := (x + 2147483648) mod 4294967296 - 2147483648.

(** Value of the low 32 bits read as an [unsigned long]. *)
Definition to_ulong (x : Z) : Z := x mod 4294967296.

Definition add (x y : Z) : Z := to_int (x + y).
Definition sub (x y : Z) : Z := to_int (x - y).
Definition mul (x y : Z) : Z := to_int (x * y).
Definition neg (x : Z) : Z := to_int (- x).

(** Arduino.h: [#define abs(x) ((x)>0?(x):-(x))], at type [int]. *)
Definition abs (x : Z) : Z := if 0 <? x then x else neg x.

Definition in_range (x : Z) : Prop := -32768 <= x <= 32767.

End Int.

(** ** The EEPROM: a byte per address

    Addresses are not reduced to the size of the device: the sketch
    compares the address of a reading with [EEPROM.length()] before it
    reads or writes it, and the erase loop stays below address 244. *)

Module Eeprom.

Definition t : Type := Z -> Z.

(** [EEPROM.read(a)]: a [uint8_t]. *)
Definition read (e : t) (a : Z) : Z := e a mod 256.

(** [EEPROM.write(a, v)] / [EEPROM.update(a, v)]: [v] is taken as a
    [uint8_t]. *)
Definition write (e : t) (a : Z) (v : Z) : t :=
  fun x => if x =? a then v mod 256 else e x.

(** [EEPROM.get(a, i)] for [int i]: two bytes, low byte first. *)
Definition get_int (e : t) (a : Z) : Z :=
  Int.to_int (read e a + 256 * read e (a + 1)).

(** [EEPROM.put(a, i)] for [int i]: two bytes, low byte first. *)
Definition put_int (e : t) (a : Z) (i : Z) : t :=
  write (write e a (Int.to_uint i)) (a + 1) (Int.to_uint i / 256).

End Eeprom.

(** ** Floating point, as an interface

    The sketch multiplies and divides [float]s only to print the energy
    estimate.  The operations are kept abstract; [Q] gives an exact
    instance to compute with. *)

Class FloatOps (F : Type) : Type := {
  fconst : Q -> F;          (* a decimal literal *)
  fmul : F -> F -> F;
  fdiv : F -> F -> F;
  of_int : Z -> F           (* conversion of an [int] *)
}.

#[export] Instance QFloat : FloatOps Q := {
  fconst := fun q => q;
  fmul := Qmult;
  fdiv := Qdiv;
  of_int := inject_Z
}.

(** ** The Serial port *)

Inductive printable (F : Type) : Type :=
| Str (s : string)
| Num (z : Z)
| Flt (f : F).

Arguments Str {F} s.
Arguments Num {F} z.
Arguments Flt {F} f.

Inductive serial (F : Type) : Type :=
| Print (p : printable F)
| Println (p : printable F).

Arguments Print {F} p.
Arguments Println {F} p.

(** ** Global variables of the sketch *)

Record state : Type := mkState {
  logging : bool;
  buttonState : bool;            (* LOW = false, HIGH = true *)
  lastButtonState : bool;
  buttonPressStartTime : Z;
  eraseMode : bool;
  readingIndex : Z;
  previousMillis : Z;
  EEPROM : Eeprom.t
}.

Definition set_logging (b : bool) (s : state) : state :=
  mkState b (buttonState s) (lastButtonState s) (buttonPressStartTime s)
          (eraseMode s) (readingIndex s) (previousMillis s) (EEPROM s).
Definition set_buttonState (b : bool) (s : state) : state :=
  mkState (logging s) b (lastButtonState s) (buttonPressStartTime s)
          (eraseMode s) (readingIndex s) (previousMillis s) (EEPROM s).
Definition set_lastButtonState (b : bool) (s : state) : state :=
  mkState (logging s) (buttonState s) b (buttonPressStartTime s)
          (eraseMode s) (readingIndex s) (previousMillis s) (EEPROM s).
Definition set_buttonPressStartTime (t : Z) (s : state) : state :=
  mkState (logging s) (buttonState s) (lastButtonState s) t
          (eraseMode s) (readingIndex s) (previousMillis s) (EEPROM s).
Definition set_eraseMode (b : bool) (s : state) : state :=
  mkState (logging s) (buttonState s) (lastButtonState s)
          (buttonPressStartTime s) b (readingIndex s) (previousMillis s)
          (EEPROM s).
Definition set_readingIndex (i : Z) (s : state) : state :=
  mkState (logging s) (buttonState s) (lastButtonState s)
          (buttonPressStartTime s) (eraseMode s) i (previousMillis s)
          (EEPROM s).
Definition set_previousMillis (t : Z) (s : state) : state :=
  mkState (logging s) (buttonState s) (lastButtonState s)
          (buttonPressStartTime s) (eraseMode s) (readingIndex s) t
          (EEPROM s).
Definition set_EEPROM (e : Eeprom.t) (s : state) : state :=
  mkState (logging s) (buttonState s) (lastButtonState s)
          (buttonPressStartTime s) (eraseMode s) (readingIndex s)
          (previousMillis s) e.

(** ** Constants *)

Definition LOW : bool := false.
Definition HIGH : bool := true.

Definition eraseHoldTime : Z := 5000.
Definition maxReadings : Z := 60.
Definition eepromStartAddress : Z := 4.
Definition testDurationMinutes : Z := 120.
Definition readDelay : Z :=
  Int.to_ulong (Int.to_ulong (Int.to_ulong (testDurationMinutes * 60) * 1000)
                / maxReadings).
Definition anomalyThreshold : Z := 10.

(** What one pass of [loop] reads from the outside. *)
Record input : Type := mkInput {
  togglePin : bool;       (* digitalRead(buttonTogglePin), line 84 *)
  currentMillis : Z;      (* millis(), line 101 *)
  analogValue1 : Z;       (* analogRead(thermistorPin1) *)
  analogValue2 : Z;       (* analogRead(thermistorPin2) *)
  loadPin : bool;         (* digitalRead(buttonLoadPin), line 185 *)
  millisPress : Z;        (* millis(), line 187 *)
  millisHold : Z;         (* millis(), line 192 *)
  millisRelease : Z       (* millis(), line 204 *)
}.

Section Sketch.

(** The [float] type of the board. *)
Context {F : Type} {float_ops : FloatOps F}.

(** Lines 111-122, one function per channel: the thermistor formula on
    the raw reading, with the channel's calibration offset, before the
    cast to [int].  It goes through [log] on [float]s and stays a
    parameter. *)
Variable fahrenheit1 fahrenheit2 : Z -> Z.

(** [EEPROM.length()], a [uint16_t] fixed by the board. *)
Variable EEPROM_length : Z.

Local Abbreviation out := (list (serial F)).

(** *** Energy constants, lines 21-25 *)

Definition specificHeatCapacityAir : F := fconst 1.005%Q.
Definition volumeInches : F := fconst 10.0%Q.
Definition volumeLiters : F :=
  fdiv (fmul (fmul (fmul volumeInches volumeInches) volumeInches)
             (fmul (fmul (fconst 2.54%Q) (fconst 2.54%Q)) (fconst 2.54%Q)))
       (fconst 1000.0%Q).
Definition densityAir : F := fconst 1.225%Q.
Definition massAir : F := fmul volumeLiters densityAir.

(** *** [setup], lines 48-80 *)

Definition power_on (e : Eeprom.t) : state :=
  mkState false LOW LOW 0 false 0 0 e.

Definition setup (e : Eeprom.t) : state * out :=
  let s := set_readingIndex (Eeprom.get_int e 0) (power_on e) in
  let readDelaySeconds := Int.to_ulong (readDelay / 1000) in
  let readDelayMinutes := Int.to_uint (readDelaySeconds / 60) in
  let readDelaySeconds := readDelaySeconds mod 60 in
  (s,
   [ Println (Str "Temperature Logging System Initialized");
     Println (Str "-------------------------------------");
     Println (Str "Press button to toggle logging.");
     Println (Str "Press second button to load data.");
     Println (Str "Hold second button for 5 seconds to erase data.");
     Println (Str "Adjust 'testDurationMinutes' variable to set the test duration in minutes.");
     Println (Str "-------------------------------------");
     Print (Str "Read delay calculated as: ");
     Print (Num readDelayMinutes);
     Print (Str " minutes ");
     Print (Num readDelaySeconds);
     Println (Str " seconds");
     Print (Str "Starting from reading index: ");
     Println (Num (readingIndex s));
     Print (Str "Max readings that can be stored: ");
     Println (Num maxReadings) ]).

(** *** The toggle button, lines 83-98 *)

Definition toggle_button (pin : bool) (s : state) : state * out :=
  let s := set_buttonState pin s in
  let '(s, o) :=
    if Bool.eqb (buttonState s) LOW && Bool.eqb (lastButtonState s) HIGH then
      let s := set_logging (negb (logging s)) s in
      if logging s then
        (set_readingIndex 0 s, [Println (Str "Logging started.")])
      else
        (s, [Println (Str "Logging stopped.")])
    else (s, []) in
  (set_lastButtonState (buttonState s) s, o).

(** *** The anomaly check, lines 125-137

    [true] when the reading is discarded. *)

Definition anomalous (s : state) (temperatureF1 temperatureF2 : Z) : bool :=
  if 0 <? readingIndex s then
    let prevAddress1 :=
      Int.add eepromStartAddress (Int.mul (Int.sub (readingIndex s) 1) 4) in
    let prevAddress2 := Int.add prevAddress1 2 in
    let prevTemperatureF1 := Eeprom.get_int (EEPROM s) prevAddress1 in
    let prevTemperatureF2 := Eeprom.get_int (EEPROM s) prevAddress2 in
    (anomalyThreshold <? Int.abs (Int.sub temperatureF1 prevTemperatureF1))
    || (anomalyThreshold <? Int.abs (Int.sub temperatureF2 prevTemperatureF2))
  else false.

(** *** Storing a reading, lines 140-164 *)

Definition store_temperatures (s : state) (temperatureF1 temperatureF2 : Z)
  : state * out :=
  if readingIndex s <? maxReadings then
    let address1 := Int.add eepromStartAddress (Int.mul (readingIndex s) 4) in
    let address2 := Int.add address1 2 in
    if Int.to_uint (Int.add address2 1) <? EEPROM_length then
      let e := Eeprom.put_int (EEPROM s) address1 temperatureF1 in
      let e := Eeprom.put_int e address2 temperatureF2 in
      let i := Int.add (readingIndex s) 1 in
      let e := Eeprom.put_int e 0 i in
      (set_EEPROM e (set_readingIndex i s),
       [ Print (Str "Stored Temperature 1: ");
         Print (Num temperatureF1);
         Print (Str ", Temperature 2: ");
         Println (Num temperatureF2);
         Print (Str "Stored at addresses: ");
         Print (Num address1);
         Print (Str " and ");
         Println (Num address2) ])
    else
      (set_logging false s,
       [Println (Str "EEPROM overflow. Stopping logging.")])
  else
    (set_logging false s,
     [Println (Str "Maximum readings reached. Stopping logging.")]).

(** *** A converted reading, lines 124-173

    The third component is [true] when [loop] returns at line 135. *)

Definition log_reading (s : state) (temperatureF1 temperatureF2 : Z)
  : state * out * bool :=
  if anomalous s temperatureF1 temperatureF2 then
    (s, [Println (Str "Anomalous reading detected, discarding...")], true)
  else
    let '(s, o) := store_temperatures s temperatureF1 temperatureF2 in
    (s,
     o ++ [ Print (Str "Current Temperature 1: ");
            Print (Num temperatureF1);
            Print (Str " *F, ");
            Print (Str "Current Temperature 2: ");
            Print (Num temperatureF2);
            Println (Str " *F") ],
     false).

(** *** The sampling step, lines 100-182 *)

Definition sample (now analogValue1 analogValue2 : Z) (s : state)
  : state * out * bool :=
  if logging s && (readDelay <=? Int.to_ulong (now - previousMillis s)) then
    let s := set_previousMillis now s in
    if (0 <? analogValue1) && (0 <? analogValue2) then
      let temperatureF1 := Int.to_int (fahrenheit1 analogValue1) in
      let temperatureF2 := Int.to_int (fahrenheit2 analogValue2) in
      log_reading s temperatureF1 temperatureF2
    else
      (s,
       (if analogValue1 <=? 0
        then [Println (Str "Analog value for Thermistor 1 is 0. Check connections.")]
        else [])
       ++
       (if analogValue2 <=? 0
        then [Println (Str "Analog value for Thermistor 2 is 0. Check connections.")]
        else []),
       false)
  else (s, [], false).

(** *** Erasing, lines 193-201 *)

Fixpoint erase_loop (fuel : nat) (i : Z) (e : Eeprom.t) : Eeprom.t :=
  match fuel with
  | O => e
  | S fuel =>
      if i <? Int.mul maxReadings 4 then
        erase_loop fuel (Int.add i 1)
                   (Eeprom.write e (Int.add eepromStartAddress i) 0)
      else e
  end.

Definition erase (s : state) : state * out :=
  let e := erase_loop (Z.to_nat (Int.mul maxReadings 4)) 0 (EEPROM s) in
  let s := set_readingIndex 0 (set_EEPROM e s) in
  let s := set_EEPROM (Eeprom.put_int (EEPROM s) 0 (readingIndex s)) s in
  (set_eraseMode true s,
   [ Println (Str "Erasing stored data...");
     Println (Str "Data erased.") ]).

(** *** Loading, lines 206-284 *)

(** The locals of lines 207-214. *)
Record stats : Type := mkStats {
  highestTemp1 : Z;
  highestTemp2 : Z;
  totalTemp1 : Z;
  totalTemp2 : Z;
  firstTemp1 : Z;
  lastTemp1 : Z;
  firstTemp2 : Z;
  lastTemp2 : Z
}.

Definition stats0 : stats := mkStats (-9999) (-9999) 0 0 0 0 0 0.

(** Lines 234-245. *)
Definition update_stats (s : state) (i temperatureF1 temperatureF2 : Z)
           (a : stats) : stats :=
  let first1 := if i =? 0 then temperatureF1 else firstTemp1 a in
  let first2 := if i =? 0 then temperatureF2 else firstTemp2 a in
  let last1 :=
    if i =? Int.sub (readingIndex s) 1 then temperatureF1 else lastTemp1 a in
  let last2 :=
    if i =? Int.sub (readingIndex s) 1 then temperatureF2 else lastTemp2 a in
  let highest1 :=
    if highestTemp1 a <? temperatureF1 then temperatureF1
    else highestTemp1 a in
  let highest2 :=
    if highestTemp2 a <? temperatureF2 then temperatureF2
    else highestTemp2 a in
  mkStats highest1 highest2
          (Int.to_long (totalTemp1 a + temperatureF1))
          (Int.to_long (totalTemp2 a + temperatureF2))
          first1 last1 first2 last2.

(** Lines 229-231: one stored pair as a line. *)
Definition record_line (r : Z * Z) : out :=
  [ Print (Num (fst r)); Print (Str ","); Println (Num (snd r)) ].

(** The [for] loop of lines 215-246, from index [i] on. *)
Fixpoint replay (fuel : nat) (s : state) (i : Z) (a : stats) : stats * out :=
  match fuel with
  | O => (a, [])
  | S fuel =>
      if i <? readingIndex s then
        let address1 := Int.add eepromStartAddress (Int.mul i 4) in
        let address2 := Int.add address1 2 in
        if Int.to_uint (Int.add address2 1) <? EEPROM_length then
          let temperatureF1 := Eeprom.get_int (EEPROM s) address1 in
          let temperatureF2 := Eeprom.get_int (EEPROM s) address2 in
          let a := update_stats s i temperatureF1 temperatureF2 a in
          let '(a, o) := replay fuel s (Int.add i 1) a in
          (a, record_line (temperatureF1, temperatureF2) ++ o)
        else (a, [Println (Str "Invalid EEPROM address.")])
      else (a, [])
  end.

(** Lines 248-257. *)
Definition avgTemp1 (s : state) (a : stats) : Z :=
  Int.to_int (Z.quot (totalTemp1 a) (readingIndex s)).
Definition avgTemp2 (s : state) (a : stats) : Z :=
  Int.to_int (Z.quot (totalTemp2 a) (readingIndex s)).
Definition tempDiff1 (a : stats) : F :=
  of_int (Int.abs (Int.sub (lastTemp1 a) (firstTemp1 a))).
Definition tempDiff2 (a : stats) : F :=
  of_int (Int.abs (Int.sub (lastTemp2 a) (firstTemp2 a))).
Definition totalEnergy1 (a : stats) : F :=
  fmul (fmul specificHeatCapacityAir massAir) (tempDiff1 a).
Definition totalEnergy2 (a : stats) : F :=
  fmul (fmul specificHeatCapacityAir massAir) (tempDiff2 a).

(** Lines 247-282. *)
Definition summary (s : state) (a : stats) : out :=
  if 0 <? readingIndex s then
    [ Println (Str "Data loading complete.");
      Print (Str "Highest Temperature 1: ");
      Println (Num (highestTemp1 a));
      Print (Str "Average Temperature 1: ");
      Println (Num (avgTemp1 s a));
      Print (Str "Measurements Count 1: ");
      Println (Num (readingIndex s));
      Print (Str "Total Energy Collected 1: ");
      Print (Flt (totalEnergy1 a));
      Println (Str " J");
      Print (Str "Highest Temperature 2: ");
      Println (Num (highestTemp2 a));
      Print (Str "Average Temperature 2: ");
      Println (Num (avgTemp2 s a));
      Print (Str "Measurements Count 2: ");
      Println (Num (readingIndex s));
      Print (Str "Total Energy Collected 2: ");
      Print (Flt (totalEnergy2 a));
      Println (Str " J") ]
  else
    [ Println (Str "No data to load.") ].

(** The scan of the stored readings: the statistics it ends with and the
    lines it prints. *)
Definition scan (s : state) : stats * out :=
  replay (Z.to_nat (readingIndex s)) s 0 stats0.

Definition load_data (s : state) : out :=
  let '(a, o) := scan s in
  Println (Str "Loading data...") :: o ++ summary s a.

(** *** The load button, lines 184-287 *)

Definition load_button (pin : bool) (tPress tHold tRelease : Z) (s : state)
  : state * out :=
  if Bool.eqb pin LOW then
    let '(s, o) :=
      if buttonPressStartTime s =? 0 then
        (set_eraseMode false (set_buttonPressStartTime tPress s),
         [Println (Str "Load button pressed.")])
      else (s, []) in
    if (eraseHoldTime <=? Int.to_ulong (tHold - buttonPressStartTime s))
       && negb (eraseMode s) then
      let '(s, o') := erase s in (s, o ++ o')
    else (s, o)
  else
    let o :=
      if negb (buttonPressStartTime s =? 0)
         && (Int.to_ulong (tRelease - buttonPressStartTime s) <? eraseHoldTime)
         && negb (eraseMode s) then
        load_data s
      else [] in
    (set_buttonPressStartTime 0 s, o).

(** *** [loop], lines 82-288 *)

Definition loop (i : input) (s : state) : state * out :=
  let '(s, o1) := toggle_button (togglePin i) s in
  let '(s, o2, returned) :=
    sample (currentMillis i) (analogValue1 i) (analogValue2 i) s in
  if returned then (s, o1 ++ o2)
  else
    let '(s, o3) :=
      load_button (loadPin i) (millisPress i) (millisHold i)
                  (millisRelease i) s in
    (s, o1 ++ o2 ++ o3).

(** Running [loop] over a list of inputs, oldest first. *)
Fixpoint run (ins : list input) (s : state) : state * out :=
  match ins with
  | [] => (s, [])
  | i :: ins =>
      let '(s, o) := loop i s in
      let '(s, o') := run ins s in
      (s, o ++ o')
  end.

(** *** The store as the sketch reads it

    The pair at index [i], under the guards the scan applies to it (lines
    215 and 221): the index counts from 0 and stays below [readingIndex],
    and the last byte of the pair lies inside the EEPROM. *)

Definition get (s : state) (i : Z) : option (Z * Z) :=
  if (0 <=? i) && (i <? readingIndex s) then
    let address1 := Int.add eepromStartAddress (Int.mul i 4) in
    let address2 := Int.add address1 2 in
    if Int.to_uint (Int.add address2 1) <? EEPROM_length then
      Some (Eeprom.get_int (EEPROM s) address1,
            Eeprom.get_int (EEPROM s) address2)
    else None
  else None.

(** The count as persisted at address 0 (line 148, read back at line 56). *)
Definition persisted_count (s : state) : Z := Eeprom.get_int (EEPROM s) 0.

(** A reset: the RAM variables take their initial values, the EEPROM
    stays, [setup] runs. *)
Definition restart (s : state) : state := fst (setup (EEPROM s)).

(** Lines 124-173 over a list of converted readings, one per sampling
    step. *)
Fixpoint log_all (cs : list (Z * Z)) (s : state) : state * out :=
  match cs with
  | [] => (s, [])
  | c :: cs =>
      let '(s, o, _) := log_reading s (fst c) (snd c) in
      let '(s, o') := log_all cs s in
      (s, o ++ o')
  end.

(** Storing a list of readings one after the other. *)
Fixpoint store_all (rs : list (Z * Z)) (s : state) : state :=
  match rs with
  | [] => s
  | r :: rs => store_all rs (fst (store_temperatures s (fst r) (snd r)))
  end.

End Sketch.

(** ** The stored readings as a list *)

(** The pair whose four bytes start at the address of index [i]. *)
Definition record_at (e : Eeprom.t) (i : Z) : Z * Z :=
  (Eeprom.get_int e (eepromStartAddress + 4 * i),
   Eeprom.get_int e (eepromStartAddress + 4 * i + 2)).

Fixpoint records_from (e : Eeprom.t) (i : Z) (k : nat) : list (Z * Z) :=
  match k with
  | O => []
  | S k => record_at e i :: records_from e (i + 1) k
  end.

(** The pairs at the indices below [readingIndex], lowest index first. *)
Definition records (s : state) : list (Z * Z) :=
  records_from (EEPROM s) 0 (Z.to_nat (readingIndex s)).

Definition sum (l : list Z) : Z := fold_right Z.add 0 l.

(** The greatest of [h] and the elements of [l]. *)
Definition highest (h : Z) (l : list Z) : Z := fold_left Z.max l h.

Definition int_pair (r : Z * Z) : Prop :=
  Int.in_range (fst r) /\ Int.in_range (snd r).

(** The state after a reading went into the EEPROM at index
    [readingIndex]. *)
Definition stored (s : state) (t1 t2 : Z) : state :=
  let n := readingIndex s in
  let e := Eeprom.put_int (EEPROM s) (eepromStartAddress + 4 * n) t1 in
  let e := Eeprom.put_int e (eepromStartAddress + 4 * n + 2) t2 in
  set_EEPROM (Eeprom.put_int e 0 (n + 1)) (set_readingIndex (n + 1) s).

(** The statistics after the scan has gone over the pairs [rs], the first
    of them at index [i]. *)
Fixpoint scan_stats (s : state) (i : Z) (a : stats) (rs : list (Z * Z))
  : stats :=
  match rs with
  | [] => a
  | r :: rs => scan_stats s (i + 1) (update_stats s i (fst r) (snd r) a) rs
  end.

(** [x - y] and the negation inside [abs] stay within [int]: the difference
    is one C++ defines. *)
Definition defined_delta (x y : Z) : Prop := Z.abs (x - y) <= 32767.

(** [m] is the greatest element of [l]. *)
Definition is_maximum (m : Z) (l : list Z) : Prop :=
  In m l /\ Forall (fun x => x <= m) l.

(** The EEPROM holds the readings of indices below [readingIndex]. *)
Definition store_fits (EEPROM_length : Z) (s : state) : Prop :=
  eepromStartAddress + 4 * readingIndex s <= EEPROM_length.

(** ** Sessions, passes and presses *)

(** What holds of every state [loop] reaches: while logging, the index is
    within the store; and the index in RAM is the persisted count, or 0
    when a session has started and stored nothing yet. *)
Definition session_invariant (s : state) : Prop :=
  (logging s = true -> 0 <= readingIndex s <= maxReadings)
  /\ (readingIndex s = persisted_count s \/ readingIndex s = 0).

(** A temperature pair far from the ends of [int]. *)
Definition small_pair (r : Z * Z) : Prop :=
  Z.abs (fst r) <= 16383 /\ Z.abs (snd r) <= 16383.

(** Both channels of [c] within [anomalyThreshold] of [p]. *)
Definition close (p c : Z * Z) : bool :=
  (Z.abs (fst c - fst p) <=? anomalyThreshold)
  && (Z.abs (snd c - snd p) <=? anomalyThreshold).

(** The readings of [cs] a filter keeps that compares each with the last
    one kept, [prev] being the last one kept before [cs]. *)
Fixpoint kept (prev : option (Z * Z)) (cs : list (Z * Z)) : list (Z * Z) :=
  match cs with
  | [] => []
  | c :: cs =>
      if match prev with None => true | Some p => close p c end
      then c :: kept (Some c) cs
      else kept prev cs
  end.

(** The last stored reading, if any. *)
Definition previous (s : state) : option (Z * Z) :=
  if 0 <? readingIndex s
  then Some (record_at (EEPROM s) (readingIndex s - 1))
  else None.


(** ** Concrete stores *)

Module Demo.

(** An EEPROM as delivered: every byte 0xFF. *)
Definition blank : Eeprom.t := fun _ => 255.

(** After [setup] and a pass of the toggle step with the button
    released. *)
Definition idle : state :=
  fst (toggle_button (F:=Q) HIGH (fst (setup (F:=Q) blank))).

(** After the press that starts a session. *)
Definition session : state := fst (toggle_button (F:=Q) LOW idle).

Definition readings : list (Z * Z) := [(70, 72); (74, 76); (77, 79)].

(** Three readings stored, on a board with 1024 bytes of EEPROM. *)
Definition logged : state := store_all (F:=Q) 1024 readings session.

(** One reading stored. *)
Definition one : state := store_all (F:=Q) 1024 [(70, 72)] session.

(** The three readings stored, the session stopped by a second press,
    the button released. *)
Definition stopped : state :=
  fst (toggle_button (F:=Q) HIGH
         (fst (toggle_button (F:=Q) LOW
                 (fst (toggle_button (F:=Q) HIGH logged))))).

(** [maxReadings] readings stored. *)
Definition full : state :=
  store_all (F:=Q) 1024 (repeat (70, 72) 60) session.

(** An EEPROM left with a count of one and the pair (-10000, -10000),
    and the sketch started on it. *)
Definition cold_eeprom : Eeprom.t :=
  Eeprom.put_int
    (Eeprom.put_int (Eeprom.put_int blank 0 1) 4 (-10000)) 6 (-10000).
Definition cold : state := fst (setup (F:=Q) cold_eeprom).

(** An EEPROM whose count says 300 readings, more than a device of 1024
    bytes holds, and the sketch started on it. *)
Definition overcount : state :=
  fst (setup (F:=Q) (Eeprom.put_int blank 0 300)).

(** The load button pressed at the time 1000. *)
Definition pressed : state :=
  fst (load_button (F:=Q) 1024 LOW 1000 1000 1000 logged).

End Demo.

(** * Properties *)

(** ** Machine integers and EEPROM cells *)

Lemma to_int_id (x : Z) : Int.in_range x -> Int.to_int x = x.
Proof.
  unfold Int.in_range, Int.to_int. intros Hx.
  rewrite Z.mod_small by lia. lia.
Qed.

Lemma to_int_in_range (x : Z) : Int.in_range (Int.to_int x).
Proof.
  unfold Int.in_range, Int.to_int.
  pose proof (Z.mod_pos_bound (x + 32768) 65536 ltac:(lia)). lia.
Qed.

Lemma to_int_idem (x : Z) : Int.to_int (Int.to_int x) = Int.to_int x.
Proof. apply to_int_id, to_int_in_range. Qed.

Lemma to_int_to_uint (x : Z) : Int.to_int (Int.to_uint x) = Int.to_int x.
Proof.
  unfold Int.to_int, Int.to_uint.
  now rewrite Zplus_mod_idemp_l.
Qed.

Lemma to_uint_id (x : Z) : 0 <= x < 65536 -> Int.to_uint x = x.
Proof. intros Hx. unfold Int.to_uint. now apply Z.mod_small. Qed.

Lemma to_long_id (x : Z) :
  -2147483648 <= x <= 2147483647 -> Int.to_long x = x.
Proof.
  unfold Int.to_long. intros Hx. rewrite Z.mod_small by lia. lia.
Qed.

Lemma bytes_of_uint (u : Z) :
  0 <= u < 65536 -> (u mod 256) mod 256 + 256 * ((u / 256 mod 256) mod 256) = u.
Proof.
  intros Hu. rewrite !Z.mod_mod by lia.
  assert (0 <= u / 256 < 256).
  { split; [apply Z.div_pos; lia | apply Z.div_lt_upper_bound; lia]. }
  rewrite (Z.mod_small (u / 256)) by lia.
  pose proof (Z.div_mod u 256 ltac:(lia)). lia.
Qed.

Lemma read_write_same (e : Eeprom.t) (a v : Z) :
  Eeprom.read (Eeprom.write e a v) a = (v mod 256) mod 256.
Proof. unfold Eeprom.read, Eeprom.write. now rewrite Z.eqb_refl. Qed.

Lemma read_write_other (e : Eeprom.t) (a b v : Z) :
  b <> a -> Eeprom.read (Eeprom.write e a v) b = Eeprom.read e b.
Proof.
  intros Hne. unfold Eeprom.read, Eeprom.write.
  destruct (Z.eqb_spec b a); [contradiction | reflexivity].
Qed.

Lemma read_put_other (e : Eeprom.t) (a b v : Z) :
  b <> a -> b <> a + 1 ->
  Eeprom.read (Eeprom.put_int e a v) b = Eeprom.read e b.
Proof.
  intros H1 H2. unfold Eeprom.put_int.
  now rewrite !read_write_other.
Qed.

Lemma get_put_same (e : Eeprom.t) (a v : Z) :
  Eeprom.get_int (Eeprom.put_int e a v) a = Int.to_int v.
Proof.
  unfold Eeprom.get_int, Eeprom.put_int.
  rewrite read_write_other by lia.
  rewrite !read_write_same.
  rewrite bytes_of_uint.
  - apply to_int_to_uint.
  - unfold Int.to_uint. apply Z.mod_pos_bound. lia.
Qed.

Lemma get_put_other (e : Eeprom.t) (a b v : Z) :
  b + 1 < a \/ a + 1 < b ->
  Eeprom.get_int (Eeprom.put_int e a v) b = Eeprom.get_int e b.
Proof.
  intros Hd. unfold Eeprom.get_int.
  rewrite !read_put_other by lia. reflexivity.
Qed.

Lemma get_int_in_range (e : Eeprom.t) (a : Z) :
  Int.in_range (Eeprom.get_int e a).
Proof. apply to_int_in_range. Qed.

(** ** Addresses of the readings *)

Lemma address1_eq (i : Z) :
  0 <= i <= maxReadings ->
  Int.add eepromStartAddress (Int.mul i 4) = eepromStartAddress + 4 * i.
Proof.
  unfold maxReadings, eepromStartAddress, Int.add, Int.mul. intros Hi.
  rewrite (to_int_id (i * 4)) by (unfold Int.in_range; lia).
  rewrite to_int_id by (unfold Int.in_range; lia). lia.
Qed.

Lemma address2_eq (i : Z) :
  0 <= i <= maxReadings ->
  Int.add (eepromStartAddress + 4 * i) 2 = eepromStartAddress + 4 * i + 2.
Proof.
  unfold maxReadings, eepromStartAddress, Int.add. intros Hi.
  apply to_int_id. unfold Int.in_range. lia.
Qed.

Lemma last_byte_eq (i : Z) :
  0 <= i <= maxReadings ->
  Int.to_uint (Int.add (eepromStartAddress + 4 * i + 2) 1)
  = eepromStartAddress + 4 * i + 3.
Proof.
  unfold maxReadings, eepromStartAddress, Int.add. intros Hi.
  rewrite to_int_id by (unfold Int.in_range; lia).
  rewrite to_uint_id by lia. lia.
Qed.

Lemma records_from_snoc (e : Eeprom.t) (k : nat) (i : Z) :
  records_from e i (S k)
  = records_from e i k ++ [record_at e (i + Z.of_nat k)].
Proof.
  revert i. induction k as [|k IH]; intros i.
  - simpl. now rewrite Z.add_0_r.
  - change (records_from e i (S (S k)))
      with (record_at e i :: records_from e (i + 1) (S k)).
    rewrite IH. cbn [records_from app].
    replace (i + 1 + Z.of_nat k) with (i + Z.of_nat (S k)) by lia.
    reflexivity.
Qed.

Lemma records_from_ext (e e' : Eeprom.t) (k : nat) (i : Z) :
  (forall j, i <= j < i + Z.of_nat k -> record_at e' j = record_at e j) ->
  records_from e' i k = records_from e i k.
Proof.
  revert i. induction k as [|k IH]; intros i Hj; simpl.
  - reflexivity.
  - rewrite Hj by lia. f_equal. apply IH. intros j Hr. apply Hj. lia.
Qed.

Lemma records_from_length (e : Eeprom.t) (k : nat) (i : Z) :
  List.length (records_from e i k) = k.
Proof. revert i. induction k; intros i; simpl; auto. Qed.

Lemma records_from_nth (e : Eeprom.t) (k : nat) (i : Z) (j : nat) :
  (j < k)%nat ->
  nth_error (records_from e i k) j = Some (record_at e (i + Z.of_nat j)).
Proof.
  revert i j. induction k as [|k IH]; intros i j Hj; [lia|].
  destruct j as [|j]; simpl.
  - now rewrite Z.add_0_r.
  - rewrite IH by lia. do 2 f_equal. lia.
Qed.

Section Properties.

Context {F : Type} {float_ops : FloatOps F}.
Variable fahrenheit1 fahrenheit2 : Z -> Z.
Variable EEPROM_length : Z.

Local Abbreviation out := (list (serial F)).
Local Abbreviation store := (store_temperatures (F:=F) EEPROM_length).

(** *** One reading stored *)

Lemma store_succeeds (s : state) (t1 t2 : Z) :
  0 <= readingIndex s < maxReadings ->
  eepromStartAddress + 4 * (readingIndex s + 1) <= EEPROM_length ->
  fst (store s t1 t2) = stored s t1 t2.
Proof.
  intros Hn Hfit. unfold store_temperatures.
  destruct (Z.ltb_spec (readingIndex s) maxReadings) as [_|]; [|lia].
  rewrite address1_eq, address2_eq, last_byte_eq by lia.
  destruct (Z.ltb_spec (eepromStartAddress + 4 * readingIndex s + 3)
                       EEPROM_length) as [_|]; [|lia].
  unfold stored, Int.add. cbn [fst].
  rewrite to_int_id by (unfold Int.in_range, maxReadings in *; lia).
  reflexivity.
Qed.

Lemma stored_record_below (s : state) (t1 t2 i : Z) :
  0 <= i < readingIndex s ->
  record_at (EEPROM (stored s t1 t2)) i = record_at (EEPROM s) i.
Proof.
  intros Hi. unfold stored, record_at, eepromStartAddress.
  cbn [EEPROM set_EEPROM set_readingIndex readingIndex].
  rewrite !(get_put_other _ 0) by lia.
  rewrite !(get_put_other _ (4 + 4 * readingIndex s + 2)) by lia.
  rewrite !(get_put_other _ (4 + 4 * readingIndex s)) by lia.
  reflexivity.
Qed.

Lemma stored_record_new (s : state) (t1 t2 : Z) :
  0 <= readingIndex s ->
  record_at (EEPROM (stored s t1 t2)) (readingIndex s)
  = (Int.to_int t1, Int.to_int t2).
Proof.
  intros Hn. unfold stored, record_at, eepromStartAddress.
  cbn [EEPROM set_EEPROM set_readingIndex readingIndex].
  rewrite !(get_put_other _ 0) by lia.
  rewrite get_put_same.
  rewrite get_put_other by lia.
  now rewrite get_put_same.
Qed.

Lemma stored_count (s : state) (t1 t2 : Z) :
  0 <= readingIndex s < maxReadings ->
  readingIndex (stored s t1 t2) = readingIndex s + 1
  /\ Eeprom.get_int (EEPROM (stored s t1 t2)) 0 = readingIndex s + 1.
Proof.
  intros Hn. unfold stored.
  cbn [EEPROM set_EEPROM set_readingIndex readingIndex].
  split; [reflexivity|].
  rewrite get_put_same. apply to_int_id.
  unfold Int.in_range, maxReadings in *. lia.
Qed.

(** *** A list of readings stored *)

Lemma records_stored (s : state) (t1 t2 : Z) :
  0 <= readingIndex s < maxReadings ->
  Int.in_range t1 -> Int.in_range t2 ->
  records (stored s t1 t2) = records s ++ [(t1, t2)].
Proof.
  intros Hn H1 H2. unfold records.
  replace (readingIndex (stored s t1 t2)) with (readingIndex s + 1)
    by reflexivity.
  replace (Z.to_nat (readingIndex s + 1)) with (S (Z.to_nat (readingIndex s)))
    by lia.
  rewrite records_from_snoc. f_equal.
  - apply records_from_ext. intros j Hj.
    apply stored_record_below. lia.
  - rewrite Z.add_0_l, Z2Nat.id by lia.
    rewrite stored_record_new by lia.
    now rewrite !to_int_id.
Qed.

Lemma store_all_spec (rs : list (Z * Z)) :
  forall s : state,
    0 <= readingIndex s ->
    readingIndex s + Z.of_nat (List.length rs) <= maxReadings ->
    eepromStartAddress + 4 * (readingIndex s + Z.of_nat (List.length rs))
    <= EEPROM_length ->
    Forall int_pair rs ->
    let s' := store_all (F:=F) EEPROM_length rs s in
    readingIndex s' = readingIndex s + Z.of_nat (List.length rs)
    /\ records s' = records s ++ rs
    /\ logging s' = logging s
    /\ (rs <> [] -> persisted_count s' = readingIndex s').
Proof.
  induction rs as [|[t1 t2] rs IH]; intros s Hn Hcap Hfit Hrs.
  - cbn. rewrite app_nil_r. repeat split; try lia. congruence.
  - cbn [store_all fst snd]. cbn [List.length] in Hcap, Hfit.
    inversion Hrs as [|r rs' [H1 H2] Hrs' E]; subst.
    cbn [fst snd] in H1, H2.
    rewrite store_succeeds by lia.
    destruct (stored_count s t1 t2 ltac:(lia)) as [Hi Hp].
    specialize (IH (stored s t1 t2)).
    rewrite Hi in IH.
    destruct IH as (IHn & IHr & IHl & IHp); try lia; try assumption.
    cbn zeta. repeat split.
    + rewrite IHn. cbn [List.length]. lia.
    + rewrite IHr, records_stored by (assumption || lia).
      now rewrite <- app_assoc.
    + rewrite IHl. reflexivity.
    + intros _. destruct rs as [|r rs].
      * cbn [store_all]. unfold persisted_count. now rewrite Hp, Hi.
      * apply IHp. discriminate.
Qed.

(** *** The scan of the stored readings *)

Lemma get_in_store (s : state) (i : Z) :
  0 <= i < readingIndex s ->
  readingIndex s <= maxReadings ->
  eepromStartAddress + 4 * readingIndex s <= EEPROM_length ->
  get EEPROM_length s i = Some (record_at (EEPROM s) i).
Proof.
  intros Hi Hn Hfit. unfold get.
  destruct (Z.leb_spec 0 i); [|lia].
  destruct (Z.ltb_spec i (readingIndex s)); [|lia].
  cbn [andb].
  rewrite address1_eq, address2_eq, last_byte_eq by lia.
  destruct (Z.ltb_spec (eepromStartAddress + 4 * i + 3) EEPROM_length);
    [reflexivity | lia].
Qed.

Lemma replay_spec (s : state) (fuel : nat) :
  forall (i : Z) (a : stats),
    0 <= i ->
    i + Z.of_nat fuel = readingIndex s ->
    readingIndex s <= maxReadings ->
    eepromStartAddress + 4 * readingIndex s <= EEPROM_length ->
    replay (F:=F) EEPROM_length fuel s i a
    = (scan_stats s i a (records_from (EEPROM s) i fuel),
       flat_map record_line (records_from (EEPROM s) i fuel)).
Proof.
  induction fuel as [|fuel IH]; intros i a Hi Hn Hcap Hfit.
  - reflexivity.
  - cbn [replay].
    destruct (Z.ltb_spec i (readingIndex s)); [|lia].
    rewrite address1_eq, address2_eq, last_byte_eq by lia.
    destruct (Z.ltb_spec (eepromStartAddress + 4 * i + 3) EEPROM_length);
      [|lia].
    replace (Int.add i 1) with (i + 1)
      by (unfold Int.add; rewrite to_int_id;
          [reflexivity | unfold Int.in_range, maxReadings in *; lia]).
    rewrite IH by lia.
    reflexivity.
Qed.

Lemma scan_spec (s : state) :
  0 <= readingIndex s <= maxReadings ->
  eepromStartAddress + 4 * readingIndex s <= EEPROM_length ->
  scan (F:=F) EEPROM_length s
  = (scan_stats s 0 stats0 (records s), flat_map record_line (records s)).
Proof.
  intros Hn Hfit. unfold scan, records.
  apply replay_spec; lia.
Qed.

(** *** The statistics the scan ends with *)

Lemma records_from_int_pair (e : Eeprom.t) (k : nat) (i : Z) :
  Forall int_pair (records_from e i k).
Proof.
  revert i. induction k as [|k IH]; intros i; cbn [records_from].
  - constructor.
  - constructor; [|apply IH].
    split; apply get_int_in_range.
Qed.

Lemma running_max (h t : Z) : (if h <? t then t else h) = Z.max h t.
Proof. destruct (Z.ltb_spec h t); lia. Qed.

Lemma scan_highest (s : state) (rs : list (Z * Z)) :
  forall (i : Z) (a : stats),
    highestTemp1 (scan_stats s i a rs) = highest (highestTemp1 a) (map fst rs)
    /\ highestTemp2 (scan_stats s i a rs)
       = highest (highestTemp2 a) (map snd rs).
Proof.
  induction rs as [|r rs IH]; intros i a; cbn [scan_stats map].
  - split; reflexivity.
  - destruct (IH (i + 1) (update_stats s i (fst r) (snd r) a)) as [E1 E2].
    rewrite E1, E2. unfold highest, update_stats.
    cbn [highestTemp1 highestTemp2 fold_left].
    now rewrite !running_max.
Qed.

Lemma sum_bounds (l : list Z) :
  Forall Int.in_range l ->
  - 32768 * Z.of_nat (List.length l) <= sum l
  <= 32767 * Z.of_nat (List.length l).
Proof.
  induction 1 as [|x l Hx Hl IH]; cbn [sum fold_right List.length].
  - lia.
  - unfold Int.in_range in Hx. fold (sum l). lia.
Qed.

Lemma int_pair_fst (rs : list (Z * Z)) :
  Forall int_pair rs -> Forall Int.in_range (map fst rs).
Proof.
  induction 1 as [|r rs [H1 _] _ IH]; cbn [map]; constructor; assumption.
Qed.

Lemma int_pair_snd (rs : list (Z * Z)) :
  Forall int_pair rs -> Forall Int.in_range (map snd rs).
Proof.
  induction 1 as [|r rs [_ H2] _ IH]; cbn [map]; constructor; assumption.
Qed.

(** The [long] totals never wrap: at most [maxReadings] values of an
    [int] go into them. *)
Lemma scan_total (s : state) (rs : list (Z * Z)) :
  forall (i : Z) (a : stats),
    Forall int_pair rs ->
    0 <= i ->
    i + Z.of_nat (List.length rs) <= maxReadings ->
    - 32768 * i <= totalTemp1 a <= 32767 * i ->
    - 32768 * i <= totalTemp2 a <= 32767 * i ->
    totalTemp1 (scan_stats s i a rs) = totalTemp1 a + sum (map fst rs)
    /\ totalTemp2 (scan_stats s i a rs) = totalTemp2 a + sum (map snd rs).
Proof.
  induction rs as [|r rs IH]; intros i a Hrs Hi Hn Ht1 Ht2;
    cbn [scan_stats map sum fold_right].
  - split; lia.
  - inversion Hrs as [|r' rs' [H1 H2] Hrs' E]; subst.
    cbn [List.length] in Hn. unfold Int.in_range, maxReadings in *.
    destruct (IH (i + 1) (update_stats s i (fst r) (snd r) a)) as [E1 E2];
      try assumption; try lia;
      try (unfold update_stats; cbn [totalTemp1 totalTemp2];
           rewrite to_long_id by lia; lia).
    rewrite E1, E2. unfold update_stats. cbn [totalTemp1 totalTemp2].
    rewrite !to_long_id by lia.
    fold (sum (map fst rs)). fold (sum (map snd rs)). lia.
Qed.

Lemma scan_first_later (s : state) (rs : list (Z * Z)) :
  forall (i : Z) (a : stats),
    0 < i ->
    firstTemp1 (scan_stats s i a rs) = firstTemp1 a
    /\ firstTemp2 (scan_stats s i a rs) = firstTemp2 a.
Proof.
  induction rs as [|r rs IH]; intros i a Hi; cbn [scan_stats].
  - split; reflexivity.
  - destruct (IH (i + 1) (update_stats s i (fst r) (snd r) a)) as [E1 E2];
      [lia|].
    rewrite E1, E2. unfold update_stats. cbn [firstTemp1 firstTemp2].
    destruct (Z.eqb_spec i 0); [lia|]. split; reflexivity.
Qed.

Lemma scan_first (s : state) (r : Z * Z) (rs : list (Z * Z)) (a : stats) :
  firstTemp1 (scan_stats s 0 a (r :: rs)) = fst r
  /\ firstTemp2 (scan_stats s 0 a (r :: rs)) = snd r.
Proof.
  cbn [scan_stats].
  destruct (scan_first_later s rs (0 + 1)
              (update_stats s 0 (fst r) (snd r) a)) as [E1 E2]; [lia|].
  rewrite E1, E2. split; reflexivity.
Qed.

Lemma scan_last (s : state) (rs : list (Z * Z)) :
  forall (i : Z) (a : stats) (d : Z * Z),
    rs <> [] ->
    i + Z.of_nat (List.length rs) = readingIndex s ->
    0 <= i ->
    readingIndex s <= maxReadings ->
    lastTemp1 (scan_stats s i a rs) = fst (last rs d)
    /\ lastTemp2 (scan_stats s i a rs) = snd (last rs d).
Proof.
  induction rs as [|r rs IH]; intros i a d Hne Hlen Hi Hn; [congruence|].
  destruct rs as [|r' rs].
  - cbn [scan_stats last update_stats lastTemp1 lastTemp2].
    cbn [List.length] in Hlen.
    unfold Int.sub. rewrite to_int_id
      by (unfold Int.in_range, maxReadings in *; lia).
    destruct (Z.eqb_spec i (readingIndex s - 1)); [|lia].
    split; reflexivity.
  - change (scan_stats s i a (r :: r' :: rs))
      with (scan_stats s (i + 1) (update_stats s i (fst r) (snd r) a)
                       (r' :: rs)).
    change (last (r :: r' :: rs) d) with (last (r' :: rs) d).
    apply IH; try lia; try discriminate.
    cbn [List.length] in *. lia.
Qed.

(** *** The store and its replay *)

Lemma records_power_on (s : state) :
  readingIndex s = 0 -> records s = [].
Proof. intros E. unfold records. now rewrite E. Qed.

Lemma load_data_spec (s : state) :
  0 <= readingIndex s <= maxReadings ->
  eepromStartAddress + 4 * readingIndex s <= EEPROM_length ->
  load_data EEPROM_length s
  = Println (Str "Loading data...")
    :: flat_map record_line (records s)
    ++ summary s (scan_stats s 0 stats0 (records s)).
Proof.
  intros Hn Hfit. unfold load_data. now rewrite scan_spec.
Qed.

(** C1. Readings stored one after the other from an empty store, at most
    [maxReadings] of them and all within the EEPROM, are all accepted:
    the count ends at their number, [get] returns at each index below it
    the pair stored there, and loading prints, after its heading, one line
    per pair in the order they were stored, the first value, a comma and
    the second value with the end of line, and only then the report, which
    gives their number as the count of measurements, or, for no reading at
    all, the line that there is no data. *)
Theorem stored_readings_are_read_back (s : state) (rs : list (Z * Z)) :
  readingIndex s = 0 ->
  Z.of_nat (List.length rs) <= maxReadings ->
  eepromStartAddress + 4 * Z.of_nat (List.length rs) <= EEPROM_length ->
  Forall int_pair rs ->
  let s' := store_all (F:=F) EEPROM_length rs s in
  let a := scan_stats s' 0 stats0 rs in
  readingIndex s' = Z.of_nat (List.length rs)
  /\ (forall i : nat,
         (i < List.length rs)%nat ->
         get EEPROM_length s' (Z.of_nat i) = nth_error rs i)
  /\ load_data EEPROM_length s'
     = Println (Str "Loading data...")
       :: flat_map (fun r => [ Print (Num (fst r));
                               Print (Str ",");
                               Println (Num (snd r)) ]) rs
       ++ match rs with
          | [] => [ Println (Str "No data to load.") ]
          | _ :: _ =>
           [ Println (Str "Data loading complete.");
             Print (Str "Highest Temperature 1: ");
             Println (Num (highestTemp1 a));
             Print (Str "Average Temperature 1: ");
             Println (Num (avgTemp1 s' a));
             Print (Str "Measurements Count 1: ");
             Println (Num (Z.of_nat (List.length rs)));
             Print (Str "Total Energy Collected 1: ");
             Print (Flt (totalEnergy1 a));
             Println (Str " J");
             Print (Str "Highest Temperature 2: ");
             Println (Num (highestTemp2 a));
             Print (Str "Average Temperature 2: ");
             Println (Num (avgTemp2 s' a));
             Print (Str "Measurements Count 2: ");
             Println (Num (Z.of_nat (List.length rs)));
             Print (Str "Total Energy Collected 2: ");
             Print (Flt (totalEnergy2 a));
             Println (Str " J") ]
          end.
Proof.
  intros H0 Hcap Hfit Hrs s' a.
  destruct (store_all_spec rs s) as (Hn & Hr & _ & _);
    try assumption; try (rewrite H0; lia).
  fold s' in Hn, Hr.
  rewrite H0, Z.add_0_l in Hn.
  rewrite (records_power_on s H0), app_nil_l in Hr.
  split; [assumption|]. split.
  - intros i Hi.
    rewrite get_in_store by lia.
    rewrite <- Hr. unfold records. rewrite Hn, Nat2Z.id.
    now rewrite records_from_nth.
  - rewrite load_data_spec by lia. rewrite Hr. fold a.
    unfold summary. rewrite Hn.
    destruct rs as [|r rs']; [reflexivity|].
    destruct (Z.ltb_spec 0 (Z.of_nat (List.length (r :: rs'))));
      [reflexivity | cbn [List.length] in *; lia].
Qed.

(** *** The anomaly check *)

Lemma abs_defined (x y : Z) :
  Int.in_range x -> Int.in_range y -> defined_delta x y ->
  Int.abs (Int.sub x y) = Z.abs (x - y).
Proof.
  unfold Int.in_range, defined_delta, Int.abs, Int.sub, Int.neg.
  intros Hx Hy Hd.
  rewrite (to_int_id (x - y)) by (unfold Int.in_range; lia).
  destruct (Z.ltb_spec 0 (x - y)); [lia|].
  rewrite to_int_id by (unfold Int.in_range; lia). lia.
Qed.

Lemma anomalous_previous (s : state) (t1 t2 : Z) :
  0 < readingIndex s <= maxReadings ->
  anomalous s t1 t2
  = (anomalyThreshold
     <? Int.abs (Int.sub t1 (fst (record_at (EEPROM s) (readingIndex s - 1)))))
    || (anomalyThreshold
        <? Int.abs (Int.sub t2 (snd (record_at (EEPROM s) (readingIndex s - 1))))).
Proof.
  intros Hn. unfold anomalous.
  destruct (Z.ltb_spec 0 (readingIndex s)); [|lia].
  replace (Int.sub (readingIndex s) 1) with (readingIndex s - 1)
    by (unfold Int.sub; rewrite to_int_id;
        [reflexivity | unfold Int.in_range, maxReadings in *; lia]).
  rewrite address1_eq, address2_eq by lia.
  reflexivity.
Qed.

(** C2. With no reading stored the check discards nothing.  With a
    previous stored reading, and temperatures whose differences C++
    defines, a reading passes exactly when both channels are within
    [anomalyThreshold] (10) of the previous stored reading: a difference
    of 10 passes, a difference of 11 on either channel does not. *)
Theorem anomaly_check_threshold (s : state) (t1 t2 : Z) :
  (readingIndex s = 0 -> anomalous s t1 t2 = false)
  /\ (0 < readingIndex s <= maxReadings ->
      Int.in_range t1 -> Int.in_range t2 ->
      let prev := record_at (EEPROM s) (readingIndex s - 1) in
      defined_delta t1 (fst prev) -> defined_delta t2 (snd prev) ->
      let d1 := Z.abs (t1 - fst prev) in
      let d2 := Z.abs (t2 - snd prev) in
      (anomalous s t1 t2 = false
       <-> d1 <= anomalyThreshold /\ d2 <= anomalyThreshold)
      /\ (d1 = 10 -> d2 = 10 -> anomalous s t1 t2 = false)
      /\ (d1 = 11 \/ d2 = 11 -> anomalous s t1 t2 = true)).
Proof.
  split.
  - intros E. unfold anomalous. now rewrite E.
  - intros Hn H1 H2 prev D1 D2 d1 d2.
    rewrite anomalous_previous by assumption. fold prev.
    rewrite !abs_defined
      by (assumption || apply get_int_in_range).
    fold d1 d2. unfold anomalyThreshold.
    destruct (Z.ltb_spec 10 d1), (Z.ltb_spec 10 d2); cbn [orb];
      repeat split; intros; try lia; try reflexivity; try discriminate;
      try (exfalso; lia).
Qed.

(** *** The sampling step *)

Lemma sample_due (now a1 a2 : Z) (s : state) :
  logging s = true ->
  readDelay <= Int.to_ulong (now - previousMillis s) ->
  0 < a1 -> 0 < a2 ->
  sample (F:=F) fahrenheit1 fahrenheit2 EEPROM_length now a1 a2 s
  = log_reading EEPROM_length (set_previousMillis now s)
                (Int.to_int (fahrenheit1 a1)) (Int.to_int (fahrenheit2 a2)).
Proof.
  intros Hl Hd H1 H2. unfold sample. rewrite Hl.
  destruct (Z.leb_spec readDelay (Int.to_ulong (now - previousMillis s)));
    [|lia].
  destruct (Z.ltb_spec 0 a1); [|lia].
  destruct (Z.ltb_spec 0 a2); [|lia].
  reflexivity.
Qed.

Lemma anomalous_previousMillis (now : Z) (s : state) (t1 t2 : Z) :
  anomalous (set_previousMillis now s) t1 t2 = anomalous s t1 t2.
Proof. reflexivity. Qed.

(** C3. With [maxReadings] (60) readings stored, storing fails: the sketch
    reports that the maximum is reached and clears [logging], and neither
    [readingIndex] nor the EEPROM (the persisted count and the readings)
    changes.  A sampling step that gets as far as storing thus ends the
    session. *)
Theorem store_full_stops_logging (s : state) (t1 t2 now a1 a2 : Z) :
  readingIndex s = maxReadings ->
  store s t1 t2
  = (set_logging false s,
     [Println (Str "Maximum readings reached. Stopping logging.")])
  /\ readingIndex (set_logging false s) = readingIndex s
  /\ EEPROM (set_logging false s) = EEPROM s
  /\ persisted_count (set_logging false s) = persisted_count s
  /\ (logging s = true ->
      readDelay <= Int.to_ulong (now - previousMillis s) ->
      0 < a1 -> 0 < a2 ->
      anomalous s (Int.to_int (fahrenheit1 a1)) (Int.to_int (fahrenheit2 a2))
      = false ->
      let '(s', o, _) :=
        sample (F:=F) fahrenheit1 fahrenheit2 EEPROM_length now a1 a2 s in
      logging s' = false
      /\ readingIndex s' = readingIndex s
      /\ EEPROM s' = EEPROM s
      /\ hd_error o
         = Some (Println (Str "Maximum readings reached. Stopping logging."))).
Proof.
  intros Hn.
  assert (Hs : forall s0 u1 u2, readingIndex s0 = maxReadings ->
               store s0 u1 u2
               = (set_logging false s0,
                  [Println (Str "Maximum readings reached. Stopping logging.")])).
  { intros s0 u1 u2 E. unfold store_temperatures. rewrite E. reflexivity. }
  split; [now apply Hs|].
  repeat split.
  intros Hl Hd H1 H2 Ha.
  rewrite sample_due by assumption.
  unfold log_reading. rewrite anomalous_previousMillis, Ha.
  rewrite Hs by exact Hn.
  repeat split.
Qed.

(** *** Starting a session *)

Lemma toggle_starts (s : state) :
  logging s = false -> lastButtonState s = HIGH ->
  toggle_button (F:=F) LOW s
  = (set_lastButtonState LOW
       (set_readingIndex 0 (set_logging true (set_buttonState LOW s))),
     [Println (Str "Logging started.")]).
Proof.
  intros Hl Hb. unfold toggle_button.
  cbn [buttonState lastButtonState set_buttonState logging set_logging].
  rewrite Hb, Hl. reflexivity.
Qed.

(** C4. A press of the toggle button while not logging sets [logging] and
    puts [readingIndex] at 0 whatever it was and whatever count is
    persisted.  The first reading sampled afterwards skips the anomaly
    check and lands at index 0, with a count of 1, and a list of readings
    stored afterwards occupies the indices from 0 on. *)
Theorem session_starts_at_index_zero
        (s : state) (now a1 a2 : Z) (rs : list (Z * Z)) :
  logging s = false ->
  lastButtonState s = HIGH ->
  readDelay <= Int.to_ulong (now - previousMillis s) ->
  0 < a1 -> 0 < a2 ->
  Z.of_nat (List.length rs) <= maxReadings ->
  eepromStartAddress + 4 * Z.max 1 (Z.of_nat (List.length rs))
  <= EEPROM_length ->
  Forall int_pair rs ->
  let s1 := fst (toggle_button (F:=F) LOW s) in
  logging s1 = true
  /\ readingIndex s1 = 0
  /\ (let '(s2, _, _) :=
        sample (F:=F) fahrenheit1 fahrenheit2 EEPROM_length now a1 a2 s1 in
      logging s2 = true
      /\ readingIndex s2 = 1
      /\ persisted_count s2 = 1
      /\ get EEPROM_length s2 0
         = Some (Int.to_int (fahrenheit1 a1), Int.to_int (fahrenheit2 a2)))
  /\ records (store_all (F:=F) EEPROM_length rs s1) = rs.
Proof.
  intros Hl Hb Hd H1 H2 Hcap Hfit Hrs s1.
  unfold s1. rewrite toggle_starts by assumption. cbn [fst].
  set (s1' := set_lastButtonState LOW _).
  assert (E0 : readingIndex s1' = 0) by reflexivity.
  split; [reflexivity|]. split; [reflexivity|]. split.
  - rewrite sample_due by (assumption || reflexivity).
    unfold log_reading.
    set (s1'' := set_previousMillis now s1').
    assert (E0' : readingIndex s1'' = 0) by reflexivity.
    replace (anomalous s1'' _ _) with false
      by (unfold anomalous; now rewrite E0').
    set (t1 := Int.to_int (fahrenheit1 a1)).
    set (t2 := Int.to_int (fahrenheit2 a2)).
    pose proof (store_succeeds s1'' t1 t2) as Hst.
    destruct (store s1'' t1 t2) as [s2 o] eqn:Es.
    cbn [fst] in Hst. rewrite Hst by (rewrite E0'; unfold maxReadings; lia).
    destruct (stored_count s1'' t1 t2) as [Hi Hp];
      [rewrite E0'; unfold maxReadings; lia|].
    rewrite E0' in Hi, Hp.
    split; [reflexivity|]. split; [assumption|]. split; [assumption|].
    rewrite get_in_store by (rewrite ?Hi; unfold maxReadings; lia).
    replace (record_at (EEPROM (stored s1'' t1 t2)) 0)
      with (record_at (EEPROM (stored s1'' t1 t2)) (readingIndex s1''))
      by (now rewrite E0').
    rewrite stored_record_new by lia.
    unfold t1, t2. now rewrite !to_int_idem.
  - destruct (store_all_spec rs s1') as (_ & Hr & _);
      try assumption; try (rewrite E0; lia).
Qed.

(** *** Readings that are not stored *)

Lemma log_all_rejected (s : state) (cs : list (Z * Z)) :
  Forall (fun c => anomalous s (fst c) (snd c) = true) cs ->
  log_all (F:=F) EEPROM_length cs s
  = (s, map (fun _ => Println (Str "Anomalous reading detected, discarding..."))
            cs).
Proof.
  induction 1 as [|c cs Hc _ IH]; cbn [log_all map].
  - reflexivity.
  - unfold log_reading. rewrite Hc, IH. reflexivity.
Qed.

(** C7. A sampling step whose reading the anomaly check discards prints
    the diagnostic and returns; [logging], [readingIndex] and the EEPROM,
    hence the stored reading the next check reads, are as before.  A run
    of readings that are each anomalous against the last stored reading
    is discarded one by one, with one diagnostic each, whatever the
    distance between a reading and the discarded one before it. *)
Theorem rejected_reading_is_skipped
        (s : state) (now a1 a2 : Z) (cs : list (Z * Z)) :
  (logging s = true ->
   readDelay <= Int.to_ulong (now - previousMillis s) ->
   0 < a1 -> 0 < a2 ->
   anomalous s (Int.to_int (fahrenheit1 a1)) (Int.to_int (fahrenheit2 a2))
   = true ->
   let '(s', o, returned) :=
     sample (F:=F) fahrenheit1 fahrenheit2 EEPROM_length now a1 a2 s in
   o = [Println (Str "Anomalous reading detected, discarding...")]
   /\ returned = true
   /\ logging s' = true
   /\ readingIndex s' = readingIndex s
   /\ EEPROM s' = EEPROM s
   /\ forall t1 t2, anomalous s' t1 t2 = anomalous s t1 t2)
  /\ (Forall (fun c => anomalous s (fst c) (snd c) = true) cs ->
      log_all (F:=F) EEPROM_length cs s
      = (s, map (fun _ =>
                   Println (Str "Anomalous reading detected, discarding..."))
                cs)).
Proof.
  split.
  - intros Hl Hd H1 H2 Ha.
    rewrite sample_due by assumption.
    unfold log_reading. rewrite anomalous_previousMillis, Ha.
    repeat split. exact Hl.
  - apply log_all_rejected.
Qed.

(** C8. A due sampling step on which either raw reading is not positive
    prints the diagnostic of each such channel and nothing else, and does
    not return early; apart from [previousMillis], the state, and with it
    [logging], [readingIndex] and the EEPROM, is as before.  No
    temperature is computed, checked or stored. *)
Theorem sensor_fault_is_skipped (s : state) (now a1 a2 : Z) :
  logging s = true ->
  readDelay <= Int.to_ulong (now - previousMillis s) ->
  a1 <= 0 \/ a2 <= 0 ->
  let '(s', o, returned) :=
    sample (F:=F) fahrenheit1 fahrenheit2 EEPROM_length now a1 a2 s in
  s' = set_previousMillis now s
  /\ o = (if a1 <=? 0
          then [Println (Str "Analog value for Thermistor 1 is 0. Check connections.")]
          else [])
         ++ (if a2 <=? 0
             then [Println (Str "Analog value for Thermistor 2 is 0. Check connections.")]
             else [])
  /\ o <> []
  /\ returned = false
  /\ logging s' = true
  /\ readingIndex s' = readingIndex s
  /\ EEPROM s' = EEPROM s.
Proof.
  intros Hl Hd Hf. unfold sample. rewrite Hl.
  destruct (Z.leb_spec readDelay (Int.to_ulong (now - previousMillis s)));
    [|lia].
  cbn [andb].
  destruct (Z.ltb_spec 0 a1), (Z.ltb_spec 0 a2); cbn [andb]; try lia;
    destruct (Z.leb_spec a1 0), (Z.leb_spec a2 0); try lia;
    repeat split; try exact Hl; discriminate.
Qed.

(** *** Erasing *)

Lemma erase_loop_read (fuel : nat) :
  forall (i : Z) (e : Eeprom.t) (a : Z),
    0 <= i ->
    i + Z.of_nat fuel = 4 * maxReadings ->
    Eeprom.read (erase_loop fuel i e) a
    = if (eepromStartAddress + i <=? a)
         && (a <? eepromStartAddress + 4 * maxReadings)
      then 0 else Eeprom.read e a.
Proof.
  unfold eepromStartAddress, maxReadings.
  induction fuel as [|fuel IH]; intros i e a Hi Hn; cbn [erase_loop].
  - destruct (Z.leb_spec (4 + i) a), (Z.ltb_spec a (4 + 4 * 60));
      cbn [andb]; try reflexivity. lia.
  - change (Int.mul maxReadings 4) with 240.
    destruct (Z.ltb_spec i 240); [|lia].
    unfold Int.add, eepromStartAddress.
    rewrite !to_int_id by (unfold Int.in_range; lia).
    rewrite IH by lia.
    destruct (Z.leb_spec (4 + (i + 1)) a), (Z.leb_spec (4 + i) a),
      (Z.ltb_spec a (4 + 4 * 60)); cbn [andb]; try reflexivity; try lia;
      try (apply read_write_other; lia).
    replace a with (4 + i) by lia. now rewrite read_write_same.
Qed.

(** C9. Erasing puts [readingIndex] at 0, writes that count to the
    EEPROM, and leaves a zero in every byte of the region of the
    [maxReadings] readings.  Afterwards no index is below the count, so
    [get] at 0 gives nothing, and loading prints no reading, only that
    there is no data. *)
Theorem erase_empties_store (s : state) :
  let s' := fst (erase (F:=F) s) in
  readingIndex s' = 0
  /\ persisted_count s' = 0
  /\ (forall a : Z,
         eepromStartAddress <= a < eepromStartAddress + 4 * maxReadings ->
         Eeprom.read (EEPROM s') a = 0)
  /\ get EEPROM_length s' 0 = None
  /\ load_data EEPROM_length s'
     = [Println (Str "Loading data..."); Println (Str "No data to load.")].
Proof.
  intros s'. split; [reflexivity|]. split; [|split; [|split; reflexivity]].
  - unfold persisted_count, s', erase.
    cbn [fst EEPROM set_EEPROM set_eraseMode set_readingIndex readingIndex].
    now rewrite get_put_same.
  - intros a Ha. unfold s', erase.
    cbn [fst EEPROM set_EEPROM set_eraseMode set_readingIndex readingIndex].
    unfold eepromStartAddress, maxReadings in Ha.
    rewrite read_put_other by lia.
    change (Z.to_nat (Int.mul maxReadings 4)) with 240%nat.
    rewrite erase_loop_read by (unfold maxReadings; lia).
    unfold eepromStartAddress, maxReadings.
    destruct (Z.leb_spec (4 + 0) a), (Z.ltb_spec a (4 + 4 * 60));
      cbn [andb]; try reflexivity; lia.
Qed.

(** *** Restarting *)

Lemma toggle_keeps_EEPROM (pin : bool) (s : state) :
  EEPROM (fst (toggle_button (F:=F) pin s)) = EEPROM s.
Proof.
  unfold toggle_button.
  cbn [buttonState lastButtonState set_buttonState logging set_logging].
  destruct pin, (lastButtonState s), (logging s); reflexivity.
Qed.

(** C10. The press that starts a session sets [logging] and puts the
    [readingIndex] in RAM at 0, and writes nothing to the EEPROM: the
    persisted count is the one from before.  A restart at that point
    comes up not logging, with [readingIndex] at that earlier count and
    with the readings the store held before the press. *)
Theorem toggle_leaves_persisted_count (s : state) :
  logging s = false ->
  lastButtonState s = HIGH ->
  let s1 := fst (toggle_button (F:=F) LOW s) in
  logging s1 = true
  /\ readingIndex s1 = 0
  /\ EEPROM s1 = EEPROM s
  /\ persisted_count s1 = persisted_count s
  /\ logging (restart (F:=F) s1) = false
  /\ readingIndex (restart (F:=F) s1) = persisted_count s
  /\ EEPROM (restart (F:=F) s1) = EEPROM s
  /\ (readingIndex s = persisted_count s ->
      records (restart (F:=F) s1) = records s
      /\ forall i : Z,
          get EEPROM_length (restart (F:=F) s1) i = get EEPROM_length s i).
Proof.
  intros Hl Hb s1.
  assert (He : EEPROM s1 = EEPROM s) by apply toggle_keeps_EEPROM.
  unfold s1 at 1 2. rewrite toggle_starts by assumption.
  split; [reflexivity|]. split; [reflexivity|]. split; [exact He|].
  unfold persisted_count, restart, setup, power_on.
  cbn [fst logging readingIndex EEPROM set_readingIndex].
  rewrite He.
  do 4 (split; [reflexivity|]).
  intros Hp. split.
  - unfold records.
    cbn [fst logging readingIndex EEPROM set_readingIndex].
    now rewrite Hp.
  - intros i. unfold get.
    cbn [fst logging readingIndex EEPROM set_readingIndex].
    now rewrite Hp.
Qed.

(** *** The report *)

Lemma highest_spec (l : list Z) :
  forall h : Z,
    h <= highest h l
    /\ Forall (fun x => x <= highest h l) l
    /\ (highest h l = h \/ In (highest h l) l).
Proof.
  unfold highest.
  induction l as [|x l IH]; intros h; cbn [fold_left].
  - repeat split; [lia | constructor | now left].
  - destruct (IH (Z.max h x)) as (Hge & Hall & Hin).
    split; [lia|]. split.
    + constructor; [lia | assumption].
    + destruct Hin as [E|Hin].
      * rewrite E. destruct (Z.max_spec h x) as [[_ Em]|[_ Em]];
          rewrite Em; [right; now left | now left].
      * right. now right.
Qed.

Lemma highest_is_maximum (h : Z) (l : list Z) :
  Exists (fun x => h <= x) l -> is_maximum (highest h l) l.
Proof.
  intros Hex. destruct (highest_spec l h) as (Hge & Hall & [E|Hin]).
  - split; [|assumption].
    apply Exists_exists in Hex. destruct Hex as (x & Hx & Hhx).
    rewrite Forall_forall in Hall. specialize (Hall x Hx).
    replace (highest h l) with x by lia. assumption.
  - split; assumption.
Qed.

Lemma quot_in_range (t n : Z) :
  0 < n -> - 32768 * n <= t <= 32767 * n -> Int.in_range (Z.quot t n).
Proof.
  intros Hn [Hlo Hhi]. unfold Int.in_range.
  apply (Z.quot_le_mono _ _ n Hn) in Hlo, Hhi.
  rewrite Z.quot_mul in Hlo, Hhi by lia. lia.
Qed.

Lemma records_length (s : state) :
  List.length (records s) = Z.to_nat (readingIndex s).
Proof. apply records_from_length. Qed.

Lemma scan_totals (s : state) :
  0 <= readingIndex s <= maxReadings ->
  totalTemp1 (scan_stats s 0 stats0 (records s)) = sum (map fst (records s))
  /\ totalTemp2 (scan_stats s 0 stats0 (records s))
     = sum (map snd (records s)).
Proof.
  intros Hn.
  destruct (scan_total s (records s) 0 stats0) as [E1 E2];
    try (cbn; lia).
  - apply records_from_int_pair.
  - rewrite records_length. lia.
  - rewrite E1, E2. split; reflexivity.
Qed.

(** C5 (amended). Loading with [readingIndex] at 0 prints that there is
    no data.  With 1 to [maxReadings] readings inside the EEPROM it prints
    every reading and then, per channel, the report of: as average, the
    sum of the stored values divided by their number, truncated towards
    zero; as highest, the greatest among -9999 and the stored values,
    which is the greatest stored value as soon as one of them is -9999 or
    more. *)
Theorem report_statistics (s : state) :
  (readingIndex s = 0 ->
   load_data EEPROM_length s
   = [Println (Str "Loading data..."); Println (Str "No data to load.")])
  /\ (0 < readingIndex s <= maxReadings ->
      store_fits EEPROM_length s ->
      let a := fst (scan (F:=F) EEPROM_length s) in
      let v1 := map fst (records s) in
      let v2 := map snd (records s) in
      load_data EEPROM_length s
      = Println (Str "Loading data...")
        :: flat_map record_line (records s) ++ summary s a
      /\ hd_error (summary s a) = Some (Println (Str "Data loading complete."))
      /\ avgTemp1 s a = Z.quot (sum v1) (readingIndex s)
      /\ avgTemp2 s a = Z.quot (sum v2) (readingIndex s)
      /\ highestTemp1 a = highest (-9999) v1
      /\ highestTemp2 a = highest (-9999) v2
      /\ (Exists (fun x => -9999 <= x) v1 -> is_maximum (highestTemp1 a) v1)
      /\ (Exists (fun x => -9999 <= x) v2 -> is_maximum (highestTemp2 a) v2)).
Proof.
  split.
  - intros E. unfold load_data, scan, summary. rewrite E. reflexivity.
  - intros Hn Hfit a v1 v2. unfold store_fits in Hfit.
    assert (Ea : a = scan_stats s 0 stats0 (records s))
      by (unfold a; now rewrite scan_spec by lia).
    destruct (scan_totals s ltac:(lia)) as [T1 T2].
    destruct (scan_highest s (records s) 0 stats0) as [M1 M2].
    rewrite <- Ea in T1, T2, M1, M2. cbn [highestTemp1 highestTemp2 stats0] in M1, M2.
    fold v1 in T1, M1. fold v2 in T2, M2.
    assert (B1 : - 32768 * readingIndex s <= sum v1 <= 32767 * readingIndex s).
    { pose proof (sum_bounds v1
                    (int_pair_fst _ (records_from_int_pair _ _ _))) as B.
      assert (L : List.length v1 = Z.to_nat (readingIndex s))
        by (unfold v1; rewrite length_map; apply records_length).
      rewrite L in B. lia. }
    assert (B2 : - 32768 * readingIndex s <= sum v2 <= 32767 * readingIndex s).
    { pose proof (sum_bounds v2
                    (int_pair_snd _ (records_from_int_pair _ _ _))) as B.
      assert (L : List.length v2 = Z.to_nat (readingIndex s))
        by (unfold v2; rewrite length_map; apply records_length).
      rewrite L in B. lia. }
    split; [rewrite load_data_spec by lia; now rewrite Ea|].
    split; [unfold summary; destruct (Z.ltb_spec 0 (readingIndex s));
            [reflexivity | lia]|].
    unfold avgTemp1, avgTemp2. rewrite T1, T2, M1, M2.
    rewrite !to_int_id by (apply quot_in_range; lia).
    do 4 (split; [reflexivity|]).
    split; apply highest_is_maximum.
Qed.

Lemma records_first_last (s : state) (d : Z * Z) :
  0 < readingIndex s ->
  exists rs,
    records s = record_at (EEPROM s) 0 :: rs
    /\ last (records s) d = record_at (EEPROM s) (readingIndex s - 1).
Proof.
  intros Hn. unfold records.
  destruct (Z.to_nat (readingIndex s)) as [|k] eqn:Ek; [lia|].
  exists (records_from (EEPROM s) (0 + 1) k). split; [reflexivity|].
  rewrite records_from_snoc, last_last. f_equal. lia.
Qed.

(** C6. With 1 to [maxReadings] readings inside the EEPROM, and first and
    last values whose difference C++ defines, the energy printed for a
    channel is [specificHeatCapacityAir * massAir * |last - first|],
    multiplied in that order, where [last] and [first] are the values
    stored at the last and the first index, [specificHeatCapacityAir] is
    the literal 1.005, and [massAir] is the volume of a cube of 10 inches
    in litres, [10 * 10 * 10 * (2.54 * 2.54 * 2.54) / 1000], times the
    density 1.225. *)
Theorem energy_estimate (s : state) :
  0 < readingIndex s <= maxReadings ->
  store_fits EEPROM_length s ->
  let a := fst (scan (F:=F) EEPROM_length s) in
  let first := record_at (EEPROM s) 0 in
  let last := record_at (EEPROM s) (readingIndex s - 1) in
  defined_delta (fst last) (fst first) ->
  defined_delta (snd last) (snd first) ->
  totalEnergy1 a
  = fmul (fmul (fconst 1.005%Q) massAir)
         (of_int (Z.abs (fst last - fst first)))
  /\ totalEnergy2 a
     = fmul (fmul (fconst 1.005%Q) massAir)
            (of_int (Z.abs (snd last - snd first)))
  /\ massAir
     = fmul (fdiv (fmul (fmul (fmul (fconst 10.0%Q) (fconst 10.0%Q))
                              (fconst 10.0%Q))
                        (fmul (fmul (fconst 2.54%Q) (fconst 2.54%Q))
                              (fconst 2.54%Q)))
                  (fconst 1000.0%Q))
            (fconst 1.225%Q)
  /\ In (Print (Flt (totalEnergy1 a))) (load_data EEPROM_length s)
  /\ In (Print (Flt (totalEnergy2 a))) (load_data EEPROM_length s).
Proof.
  intros Hn Hfit a first last D1 D2. unfold store_fits in Hfit.
  assert (Ea : a = scan_stats s 0 stats0 (records s))
    by (unfold a; now rewrite scan_spec by lia).
  destruct (records_first_last s (0, 0)) as (rs & Er & El); [lia|].
  destruct (scan_last s (records s) 0 stats0 (0, 0)) as [L1 L2];
    try lia.
  { rewrite Er. discriminate. }
  { rewrite records_length. lia. }
  rewrite El in L1, L2. fold last in L1, L2.
  destruct (scan_first s (record_at (EEPROM s) 0) rs stats0) as [F1 F2].
  rewrite <- Er in F1, F2. fold first in F1, F2.
  rewrite <- Ea in L1, L2, F1, F2.
  assert (E1 : totalEnergy1 a
               = fmul (fmul (fconst 1.005%Q) massAir)
                      (of_int (Z.abs (fst last - fst first)))).
  { unfold totalEnergy1, tempDiff1. rewrite L1, F1.
    rewrite abs_defined by (assumption || apply get_int_in_range).
    reflexivity. }
  assert (E2 : totalEnergy2 a
               = fmul (fmul (fconst 1.005%Q) massAir)
                      (of_int (Z.abs (snd last - snd first)))).
  { unfold totalEnergy2, tempDiff2. rewrite L2, F2.
    rewrite abs_defined by (assumption || apply get_int_in_range).
    reflexivity. }
  split; [exact E1|]. split; [exact E2|]. split; [reflexivity|].
  rewrite load_data_spec by lia. rewrite <- Ea.
  unfold summary. destruct (Z.ltb_spec 0 (readingIndex s)); [|lia].
  split; right; apply in_or_app; right;
    repeat (first [left; reflexivity | right]).
Qed.

(** *** The load button *)



(** A pass of [loop] whose reading is discarded returns at line 135: the
    load button is not looked at. *)
Lemma loop_returns_on_anomaly (i : input) (s : state) :
  let s1 := fst (toggle_button (F:=F) (togglePin i) s) in
  logging s1 = true ->
  readDelay <= Int.to_ulong (currentMillis i - previousMillis s1) ->
  0 < analogValue1 i -> 0 < analogValue2 i ->
  anomalous s1 (Int.to_int (fahrenheit1 (analogValue1 i)))
            (Int.to_int (fahrenheit2 (analogValue2 i))) = true ->
  fst (loop fahrenheit1 fahrenheit2 EEPROM_length i s)
  = set_previousMillis (currentMillis i) s1.
Proof.
  intros s1 Hl Hd H1 H2 Ha. unfold loop.
  destruct (toggle_button (F:=F) (togglePin i) s) as [s1' o1] eqn:Et.
  cbn [fst] in s1. subst s1.
  rewrite sample_due by assumption.
  unfold log_reading. rewrite anomalous_previousMillis, Ha.
  reflexivity.
Qed.

End Properties.

(** The mass of air, computed exactly: 16.387064 litres at 1.225 g/L. *)
Lemma massAir_exact : (massAir (F:=Q) == 20.0741534)%Q.
Proof. reflexivity. Qed.

(** The scenario of four readings of which the third is discarded: three
    pairs end up stored, and the report shows 77 as highest and 73 as
    average of the first channel. *)
Example four_readings_one_discarded :
  let s := fst (log_all (F:=Q) 1024
                        [(70, 72); (74, 76); (200, 76); (77, 79)]
                        Demo.session) in
  readingIndex s = 3
  /\ persisted_count s = 3
  /\ records s = [(70, 72); (74, 76); (77, 79)]
  /\ highestTemp1 (fst (scan (F:=Q) 1024 s)) = 77
  /\ avgTemp1 s (fst (scan (F:=Q) 1024 s)) = 73
  /\ (totalEnergy1 (fst (scan (F:=Q) 1024 s))
      == 1.005 * massAir (F:=Q) * 7)%Q.
Proof. vm_compute. repeat split; reflexivity. Qed.

(** ** The sentinel of the highest temperature *)

(** C5, as stated, fails: on an EEPROM holding the single pair
    (-10000, -10000) the highest temperature reported is -9999, which is not
    among the stored values. *)
Lemma highest_is_sentinel_on_cold_store :
  readingIndex Demo.cold = 1
  /\ records Demo.cold = [(-10000, -10000)]
  /\ highestTemp1 (fst (scan (F:=Q) 1024 Demo.cold)) = -9999
  /\ ~ is_maximum (highestTemp1 (fst (scan (F:=Q) 1024 Demo.cold)))
                  (map fst (records Demo.cold)).
Proof.
  split; [reflexivity|]. split; [reflexivity|]. split; [reflexivity|].
  intros [Hin _]. vm_compute in Hin.
  destruct Hin as [E|[]]. discriminate E.
Qed.

(** ** The properties on concrete stores *)

(** Closed comparisons, by evaluation. *)
Ltac evaluate :=
  vm_compute; repeat split; first [reflexivity | discriminate].

Lemma stored_readings_are_read_back_witness :
  readingIndex Demo.logged = 3
  /\ get 1024 Demo.logged 2 = Some (77, 79)
  /\ firstn 11 (load_data (F:=Q) 1024 Demo.logged)
     = [ Println (Str "Loading data...");
         Print (Num 70); Print (Str ","); Println (Num 72);
         Print (Num 74); Print (Str ","); Println (Num 76);
         Print (Num 77); Print (Str ","); Println (Num 79);
         Println (Str "Data loading complete.") ].
Proof.
  pose proof (stored_readings_are_read_back (F:=Q) 1024
                Demo.session Demo.readings) as W.
  destruct W as (Hn & Hg & Hl).
  - reflexivity.
  - evaluate.
  - evaluate.
  - repeat constructor; evaluate.
  - split; [exact Hn|]. split.
    + apply (Hg 2%nat). vm_compute. repeat constructor.
    + change Demo.logged with (store_all (F:=Q) 1024 Demo.readings Demo.session).
      rewrite Hl. reflexivity.
Defined.

Lemma anomaly_check_threshold_witness :
  anomalous Demo.one 80 62 = false /\ anomalous Demo.one 81 72 = true.
Proof.
  assert (Hn : 0 < readingIndex Demo.one <= maxReadings) by evaluate.
  split.
  - destruct (anomaly_check_threshold Demo.one 80 62) as [_ W].
    assert (H1 : Int.in_range 80) by evaluate.
    assert (H2 : Int.in_range 62) by evaluate.
    specialize (W Hn H1 H2). cbv zeta in W.
    assert (D1 : defined_delta 80 (fst (record_at (EEPROM Demo.one)
                                          (readingIndex Demo.one - 1))))
      by evaluate.
    assert (D2 : defined_delta 62 (snd (record_at (EEPROM Demo.one)
                                          (readingIndex Demo.one - 1))))
      by evaluate.
    exact (proj1 (proj2 (W D1 D2)) eq_refl eq_refl).
  - destruct (anomaly_check_threshold Demo.one 81 72) as [_ W].
    assert (H1 : Int.in_range 81) by evaluate.
    assert (H2 : Int.in_range 72) by evaluate.
    specialize (W Hn H1 H2). cbv zeta in W.
    assert (D1 : defined_delta 81 (fst (record_at (EEPROM Demo.one)
                                          (readingIndex Demo.one - 1))))
      by evaluate.
    assert (D2 : defined_delta 72 (snd (record_at (EEPROM Demo.one)
                                          (readingIndex Demo.one - 1))))
      by evaluate.
    exact (proj2 (proj2 (W D1 D2)) (or_introl eq_refl)).
Defined.

Lemma store_full_stops_logging_witness :
  store_temperatures (F:=Q) 1024 Demo.full 70 72
  = (set_logging false Demo.full,
     [Println (Str "Maximum readings reached. Stopping logging.")])
  /\ logging
       (fst (fst (sample (F:=Q) (fun _ => 70) (fun _ => 72) 1024
                         200000 512 512 Demo.full)))
     = false.
Proof.
  destruct (store_full_stops_logging (F:=Q) (fun _ => 70) (fun _ => 72) 1024
              Demo.full 70 72 200000 512 512) as (W1 & _ & _ & _ & W2).
  - vm_compute. reflexivity.
  - split; [exact W1|].
    assert (Hl : logging Demo.full = true) by evaluate.
    assert (Hd : readDelay <= Int.to_ulong (200000 - previousMillis Demo.full))
      by evaluate.
    assert (Ha : anomalous Demo.full (Int.to_int 70) (Int.to_int 72) = false)
      by evaluate.
    specialize (W2 Hl Hd eq_refl eq_refl Ha).
    destruct (sample (F:=Q) (fun _ => 70) (fun _ => 72) 1024
                     200000 512 512 Demo.full) as [[s' o] r].
    exact (proj1 W2).
Defined.

Lemma session_starts_at_index_zero_witness :
  persisted_count Demo.stopped = 3
  /\ readingIndex (fst (toggle_button (F:=Q) LOW Demo.stopped)) = 0
  /\ records (store_all (F:=Q) 1024 [(90, 91)]
                        (fst (toggle_button (F:=Q) LOW Demo.stopped)))
     = [(90, 91)].
Proof.
  split; [evaluate|].
  assert (Hl : logging Demo.stopped = false) by evaluate.
  assert (Hb : lastButtonState Demo.stopped = HIGH) by evaluate.
  assert (Hd : readDelay
               <= Int.to_ulong (200000 - previousMillis Demo.stopped))
    by evaluate.
  assert (Hc : Z.of_nat (List.length [(90, 91)]) <= maxReadings) by evaluate.
  assert (Hf : eepromStartAddress
               + 4 * Z.max 1 (Z.of_nat (List.length [(90, 91)])) <= 1024)
    by evaluate.
  assert (Hr : Forall int_pair [(90, 91)]) by (repeat constructor; evaluate).
  pose proof (session_starts_at_index_zero (F:=Q) (fun _ => 70) (fun _ => 72)
                1024 Demo.stopped 200000 512 512 [(90, 91)]
                Hl Hb Hd eq_refl eq_refl Hc Hf Hr) as W.
  cbv zeta in W. destruct W as (_ & W0 & _ & Wr).
  split; [exact W0 | exact Wr].
Defined.

Lemma report_statistics_witness :
  highestTemp1 (fst (scan (F:=Q) 1024 Demo.logged)) = 77
  /\ avgTemp1 Demo.logged (fst (scan (F:=Q) 1024 Demo.logged)) = 73
  /\ is_maximum 79 (map snd (records Demo.logged)).
Proof.
  assert (Hn : 0 < readingIndex Demo.logged <= maxReadings) by evaluate.
  assert (Hf : store_fits 1024 Demo.logged) by evaluate.
  pose proof (proj2 (report_statistics (F:=Q) 1024 Demo.logged) Hn Hf) as W.
  cbv zeta in W.
  destruct W as (_ & _ & Wa & _ & Wh & _ & _ & Wm).
  split; [rewrite Wh; evaluate|].
  split; [rewrite Wa; evaluate|].
  apply Wm. vm_compute. left. discriminate.
Defined.

Lemma energy_estimate_witness :
  (totalEnergy1 (F:=Q) (fst (scan (F:=Q) 1024 Demo.logged))
   == 1.005 * 20.0741534 * 7)%Q.
Proof.
  assert (Hn : 0 < readingIndex Demo.logged <= maxReadings) by evaluate.
  assert (Hf : store_fits 1024 Demo.logged) by evaluate.
  pose proof (energy_estimate (F:=Q) 1024 Demo.logged Hn Hf) as W.
  cbv zeta in W.
  assert (D1 : defined_delta
                 (fst (record_at (EEPROM Demo.logged)
                                 (readingIndex Demo.logged - 1)))
                 (fst (record_at (EEPROM Demo.logged) 0))) by evaluate.
  assert (D2 : defined_delta
                 (snd (record_at (EEPROM Demo.logged)
                                 (readingIndex Demo.logged - 1)))
                 (snd (record_at (EEPROM Demo.logged) 0))) by evaluate.
  rewrite (proj1 (W D1 D2)). vm_compute. reflexivity.
Defined.

Lemma rejected_reading_is_skipped_witness :
  log_all (F:=Q) 1024 [(200, 76); (190, 76)] Demo.one
  = (Demo.one,
     [Println (Str "Anomalous reading detected, discarding...");
      Println (Str "Anomalous reading detected, discarding...")])
  /\ fst (sample (F:=Q) (fun _ => 200) (fun _ => 76) 1024 200000 512 512
                 Demo.one)
     = (set_previousMillis 200000 Demo.one,
        [Println (Str "Anomalous reading detected, discarding...")]).
Proof.
  destruct (rejected_reading_is_skipped (F:=Q) (fun _ => 200) (fun _ => 76)
              1024 Demo.one 200000 512 512 [(200, 76); (190, 76)])
    as [W1 W2].
  split.
  - apply W2. repeat constructor.
  - assert (Hl : logging Demo.one = true) by evaluate.
    assert (Hd : readDelay <= Int.to_ulong (200000 - previousMillis Demo.one))
      by evaluate.
    assert (Ha : anomalous Demo.one (Int.to_int 200) (Int.to_int 76) = true)
      by evaluate.
    specialize (W1 Hl Hd eq_refl eq_refl Ha).
    rewrite (sample_due (F:=Q) (fun _ => 200) (fun _ => 76) 1024
                        200000 512 512 Demo.one Hl Hd eq_refl eq_refl) in *.
    unfold log_reading in *.
    rewrite anomalous_previousMillis, Ha in *.
    reflexivity.
Defined.

Lemma sensor_fault_is_skipped_witness :
  sample (F:=Q) (fun _ => 70) (fun _ => 72) 1024 200000 0 512 Demo.one
  = (set_previousMillis 200000 Demo.one,
     [Println (Str "Analog value for Thermistor 1 is 0. Check connections.")],
     false).
Proof.
  pose proof (sensor_fault_is_skipped (F:=Q) (fun _ => 70) (fun _ => 72) 1024
                Demo.one 200000 0 512) as W.
  assert (Hl : logging Demo.one = true) by evaluate.
  assert (Hd : readDelay <= Int.to_ulong (200000 - previousMillis Demo.one))
    by evaluate.
  assert (Hf : 0 <= 0 \/ 512 <= 0) by (left; discriminate).
  specialize (W Hl Hd Hf).
  destruct (sample (F:=Q) (fun _ => 70) (fun _ => 72) 1024 200000 0 512
                   Demo.one) as [[s' o] r].
  destruct W as (Es & Eo & _ & Er & _).
  rewrite Es, Eo, Er. reflexivity.
Defined.

Lemma toggle_leaves_persisted_count_witness :
  readingIndex (fst (toggle_button (F:=Q) LOW Demo.stopped)) = 0
  /\ readingIndex (restart (F:=Q) (fst (toggle_button (F:=Q) LOW Demo.stopped)))
     = 3
  /\ records (restart (F:=Q) (fst (toggle_button (F:=Q) LOW Demo.stopped)))
     = Demo.readings.
Proof.
  assert (Hl : logging Demo.stopped = false) by evaluate.
  assert (Hb : lastButtonState Demo.stopped = HIGH) by evaluate.
  pose proof (toggle_leaves_persisted_count (F:=Q) 1024 Demo.stopped Hl Hb)
    as W.
  cbv zeta in W. destruct W as (_ & W0 & _ & _ & _ & Wn & _ & Wr).
  assert (Hp : readingIndex Demo.stopped = persisted_count Demo.stopped)
    by evaluate.
  split; [exact W0|].
  split; [rewrite Wn; evaluate|].
  rewrite (proj1 (Wr Hp)). evaluate.
Defined.

(** * Further properties of the sketch *)

Section Further.

Context {F : Type} {float_ops : FloatOps F}.
Variable fahrenheit1 fahrenheit2 : Z -> Z.
Variable EEPROM_length : Z.

Local Abbreviation store := (store_temperatures (F:=F) EEPROM_length).

(** ** The invariant of the reachable states *)

Lemma session_invariant_ext (s s' : state) :
  logging s' = logging s ->
  readingIndex s' = readingIndex s ->
  EEPROM s' = EEPROM s ->
  session_invariant s -> session_invariant s'.
Proof.
  unfold session_invariant, persisted_count.
  intros El En Ee [H1 H2]. rewrite El, En, Ee. split; assumption.
Qed.

Lemma session_invariant_stopped (s s' : state) :
  logging s' = false ->
  readingIndex s' = readingIndex s ->
  EEPROM s' = EEPROM s ->
  session_invariant s -> session_invariant s'.
Proof.
  unfold session_invariant, persisted_count.
  intros El En Ee [H1 H2]. rewrite El, En, Ee.
  split; [discriminate | assumption].
Qed.

Lemma store_cases (s : state) (t1 t2 : Z) :
  0 <= readingIndex s <= maxReadings ->
  (readingIndex s < maxReadings
   /\ eepromStartAddress + 4 * (readingIndex s + 1) <= EEPROM_length
   /\ fst (store s t1 t2) = stored s t1 t2)
  \/ ((maxReadings <= readingIndex s
       \/ EEPROM_length < eepromStartAddress + 4 * (readingIndex s + 1))
      /\ fst (store s t1 t2) = set_logging false s).
Proof.
  intros Hn.
  destruct (Z_lt_ge_dec (readingIndex s) maxReadings) as [Hlt|Hge].
  - destruct (Z_le_gt_dec (eepromStartAddress + 4 * (readingIndex s + 1))
                          EEPROM_length) as [Hfit|Hno].
    + left. split; [assumption|]. split; [assumption|].
      apply store_succeeds; lia.
    + right. split; [right; lia|].
      unfold store_temperatures.
      destruct (Z.ltb_spec (readingIndex s) maxReadings); [|lia].
      rewrite address1_eq, address2_eq, last_byte_eq by lia.
      destruct (Z.ltb_spec (eepromStartAddress + 4 * readingIndex s + 3)
                           EEPROM_length); [lia | reflexivity].
  - right. split; [left; lia|].
    unfold store_temperatures.
    destruct (Z.ltb_spec (readingIndex s) maxReadings); [lia | reflexivity].
Qed.

Lemma toggle_button_invariant (pin : bool) (s : state) :
  session_invariant s ->
  session_invariant (fst (toggle_button (F:=F) pin s)).
Proof.
  intros Hs. unfold toggle_button.
  cbn [buttonState lastButtonState set_buttonState logging set_logging].
  destruct pin, (lastButtonState s) eqn:Eb, (logging s) eqn:El;
    cbn [Bool.eqb LOW HIGH andb negb fst];
    try (apply (session_invariant_ext s); [cbn; congruence | reflexivity
                                          | reflexivity | assumption]).
  - apply (session_invariant_stopped s); [reflexivity | reflexivity
                                          | reflexivity | assumption].
  - split; [intros _; cbn; unfold maxReadings; lia | right; reflexivity].
Qed.

Lemma log_reading_invariant (s : state) (t1 t2 : Z) :
  logging s = true ->
  session_invariant s ->
  session_invariant (fst (fst (log_reading (F:=F) EEPROM_length s t1 t2))).
Proof.
  intros Hl Hs. unfold log_reading.
  destruct (anomalous s t1 t2); [exact Hs|].
  destruct (store s t1 t2) as [s' o] eqn:Es. cbn [fst].
  pose proof (store_cases s t1 t2 (proj1 Hs Hl)) as Hc.
  rewrite Es in Hc. cbn [fst] in Hc.
  destruct Hc as [(Hlt & Hfit & E)|(_ & E)]; subst s'.
  - destruct (stored_count s t1 t2) as [Hi Hp];
      [pose proof (proj1 Hs Hl); lia|].
    split.
    + intros _. rewrite Hi. pose proof (proj1 Hs Hl). lia.
    + left. unfold persisted_count. now rewrite Hi, Hp.
  - apply (session_invariant_stopped s); [reflexivity | reflexivity
                                          | reflexivity | assumption].
Qed.

Lemma sample_invariant (now a1 a2 : Z) (s : state) :
  session_invariant s ->
  session_invariant
    (fst (fst (sample (F:=F) fahrenheit1 fahrenheit2 EEPROM_length
                      now a1 a2 s))).
Proof.
  intros Hs. unfold sample.
  destruct (logging s) eqn:El; [|exact Hs].
  destruct (readDelay <=? Int.to_ulong (now - previousMillis s));
    cbn [andb]; [|exact Hs].
  assert (Hs' : session_invariant (set_previousMillis now s))
    by (apply (session_invariant_ext s); [reflexivity | reflexivity
                                          | reflexivity | assumption]).
  destruct ((0 <? a1) && (0 <? a2)); [|exact Hs'].
  apply log_reading_invariant; [exact El | exact Hs'].
Qed.

Lemma load_button_invariant (pin : bool) (tPress tHold tRelease : Z)
      (s : state) :
  session_invariant s ->
  session_invariant
    (fst (load_button (F:=F) EEPROM_length pin tPress tHold tRelease s)).
Proof.
  intros Hs. unfold load_button.
  destruct pin; cbn [Bool.eqb LOW].
  - apply (session_invariant_ext s); [reflexivity | reflexivity
                                      | reflexivity | assumption].
  - set (p := if buttonPressStartTime s =? 0
              then (set_eraseMode false (set_buttonPressStartTime tPress s),
                    [Println (Str "Load button pressed.")])
              else (s, @nil (serial F))).
    assert (Hp : session_invariant (fst p)).
    { unfold p. destruct (buttonPressStartTime s =? 0); [|exact Hs].
      apply (session_invariant_ext s); [reflexivity | reflexivity
                                        | reflexivity | assumption]. }
    destruct p as [s1 o1]. cbn [fst] in Hp.
    destruct ((eraseHoldTime <=? Int.to_ulong (tHold - buttonPressStartTime s1))
              && negb (eraseMode s1)); [|exact Hp].
    destruct (erase (F:=F) s1) as [s2 o2] eqn:Ee.
    change s2 with (fst (s2, o2)). rewrite <- Ee.
    split.
    + intros _. cbn. unfold maxReadings. lia.
    + right. reflexivity.
Qed.

Lemma loop_invariant (i : input) (s : state) :
  session_invariant s ->
  session_invariant (fst (loop fahrenheit1 fahrenheit2 EEPROM_length i s)).
Proof.
  intros Hs. unfold loop.
  pose proof (toggle_button_invariant (togglePin i) s Hs) as H1.
  destruct (toggle_button (togglePin i) s) as [s1 o1]. cbn [fst] in H1.
  pose proof (sample_invariant (currentMillis i) (analogValue1 i)
                               (analogValue2 i) s1 H1) as H2.
  destruct (sample fahrenheit1 fahrenheit2 EEPROM_length (currentMillis i)
                   (analogValue1 i) (analogValue2 i) s1) as [[s2 o2] r].
  cbn [fst] in H2.
  destruct r; [exact H2|].
  pose proof (load_button_invariant (loadPin i) (millisPress i)
                (millisHold i) (millisRelease i) s2 H2) as H3.
  destruct (load_button EEPROM_length (loadPin i) (millisPress i)
                        (millisHold i) (millisRelease i) s2) as [s3 o3].
  exact H3.
Qed.

(** X1. Whatever the EEPROM holds at power-on and whatever the pins and
    the clock deliver afterwards, after [setup] and any number of passes of
    [loop]: while [logging] is set, [readingIndex] lies between 0 and
    [maxReadings]; and [readingIndex] equals the count persisted at
    address 0, or is 0. *)
Theorem reachable_states_keep_invariant (e : Eeprom.t) (ins : list input) :
  session_invariant
    (fst (run fahrenheit1 fahrenheit2 EEPROM_length ins
              (fst (setup (F:=F) e)))).
Proof.
  assert (H0 : session_invariant (fst (setup (F:=F) e))).
  { split; [discriminate | left; reflexivity]. }
  revert H0. generalize (fst (setup (F:=F) e)).
  induction ins as [|i ins IH]; intros s Hs; cbn [run].
  - exact Hs.
  - pose proof (loop_invariant i s Hs) as H1.
    destruct (loop fahrenheit1 fahrenheit2 EEPROM_length i s) as [s1 o1].
    cbn [fst] in H1. specialize (IH s1 H1).
    destruct (run fahrenheit1 fahrenheit2 EEPROM_length ins s1) as [s2 o2].
    exact IH.
Qed.

(** ** A session as a filter *)

Lemma small_in_range (r : Z * Z) : small_pair r -> int_pair r.
Proof. unfold small_pair, int_pair, Int.in_range. lia. Qed.

Lemma anomalous_close (s : state) (c : Z * Z) :
  0 <= readingIndex s <= maxReadings ->
  small_pair c ->
  match previous s with Some p => small_pair p | None => True end ->
  anomalous s (fst c) (snd c)
  = negb match previous s with None => true | Some p => close p c end.
Proof.
  intros Hn Hc Hp. unfold previous in *.
  destruct (Z.ltb_spec 0 (readingIndex s)) as [Hpos|Hz].
  - rewrite anomalous_previous by lia.
    set (p := record_at (EEPROM s) (readingIndex s - 1)) in *.
    unfold small_pair in Hc, Hp.
    rewrite !abs_defined
      by (unfold Int.in_range, defined_delta; lia).
    unfold close.
    destruct (Z.ltb_spec anomalyThreshold (Z.abs (fst c - fst p))),
      (Z.ltb_spec anomalyThreshold (Z.abs (snd c - snd p))),
      (Z.leb_spec (Z.abs (fst c - fst p)) anomalyThreshold),
      (Z.leb_spec (Z.abs (snd c - snd p)) anomalyThreshold);
      cbn [orb andb negb]; try reflexivity; lia.
  - unfold anomalous.
    destruct (Z.ltb_spec 0 (readingIndex s)); [lia | reflexivity].
Qed.

Lemma previous_stored (s : state) (t1 t2 : Z) :
  0 <= readingIndex s ->
  Int.in_range t1 -> Int.in_range t2 ->
  previous (stored s t1 t2) = Some (t1, t2).
Proof.
  intros Hn H1 H2. unfold previous.
  replace (readingIndex (stored s t1 t2)) with (readingIndex s + 1)
    by reflexivity.
  destruct (Z.ltb_spec 0 (readingIndex s + 1)); [|lia].
  replace (readingIndex s + 1 - 1) with (readingIndex s) by lia.
  rewrite stored_record_new by lia.
  now rewrite !to_int_id.
Qed.

Lemma log_all_cons (c : Z * Z) (cs : list (Z * Z)) (s : state) :
  fst (log_all (F:=F) EEPROM_length (c :: cs) s)
  = fst (log_all (F:=F) EEPROM_length cs
                 (fst (fst (log_reading (F:=F) EEPROM_length s
                                        (fst c) (snd c))))).
Proof.
  cbn [log_all].
  destruct (log_reading EEPROM_length s (fst c) (snd c)) as [[s1 o1] r].
  cbn [fst].
  now destruct (log_all EEPROM_length cs s1).
Qed.

Lemma log_all_kept (cs : list (Z * Z)) :
  forall s : state,
    0 <= readingIndex s ->
    readingIndex s + Z.of_nat (List.length cs) <= maxReadings ->
    eepromStartAddress + 4 * (readingIndex s + Z.of_nat (List.length cs))
    <= EEPROM_length ->
    Forall small_pair cs ->
    match previous s with Some p => small_pair p | None => True end ->
    let s' := fst (log_all (F:=F) EEPROM_length cs s) in
    records s' = records s ++ kept (previous s) cs
    /\ readingIndex s'
       = readingIndex s + Z.of_nat (List.length (kept (previous s) cs))
    /\ logging s' = logging s.
Proof.
  induction cs as [|c cs IH]; intros s Hn Hcap Hfit Hcs Hp.
  - cbn. rewrite app_nil_r. repeat split. lia.
  - cbn zeta. rewrite log_all_cons.
    inversion Hcs as [|c' cs' Hc Hcs' E]; subst.
    cbn [List.length] in Hcap, Hfit.
    unfold log_reading.
    rewrite anomalous_close by (assumption || lia).
    cbn [kept].
    destruct (match previous s with
              | Some p => close p c | None => true end); cbn [negb].
    + pose proof (store_succeeds (F:=F) EEPROM_length s (fst c) (snd c)
                    ltac:(lia) ltac:(lia)) as Es.
      destruct (store_temperatures EEPROM_length s (fst c) (snd c))
        as [s1 o1].
      cbn [fst] in Es |- *. subst s1.
      destruct (small_in_range c Hc) as [R1 R2].
      assert (Ei : readingIndex (stored s (fst c) (snd c))
                   = readingIndex s + 1) by reflexivity.
      specialize (IH (stored s (fst c) (snd c))).
      rewrite Ei in IH.
      rewrite previous_stored in IH by assumption.
      rewrite <- surjective_pairing in IH.
      destruct IH as (IHr & IHn & IHl); try lia; try assumption.
      rewrite IHr, IHn, IHl.
      rewrite records_stored by (assumption || lia).
      rewrite <- surjective_pairing, <- app_assoc.
      cbn [List.length app]. repeat split. lia.
    + cbn [fst]. apply IH; try assumption; lia.
Qed.

(** X2. From the start of a session, readings sampled one after the other
    (temperatures of magnitude at most 16383, no more than [maxReadings] of
    them, the region of that many readings inside the EEPROM) leave in the
    store exactly the readings a filter keeps that compares each reading
    with the last one kept and drops it when either channel differs by
    more than [anomalyThreshold]: the first is always kept, and a dropped
    reading never becomes the reference. *)
Theorem session_stores_kept_readings (s : state) (cs : list (Z * Z)) :
  readingIndex s = 0 ->
  Z.of_nat (List.length cs) <= maxReadings ->
  eepromStartAddress + 4 * Z.of_nat (List.length cs) <= EEPROM_length ->
  Forall small_pair cs ->
  let s' := fst (log_all (F:=F) EEPROM_length cs s) in
  records s' = kept None cs
  /\ readingIndex s' = Z.of_nat (List.length (kept None cs))
  /\ logging s' = logging s.
Proof.
  intros H0 Hcap Hfit Hcs.
  assert (Ep : previous s = None) by (unfold previous; now rewrite H0).
  destruct (log_all_kept cs s) as (Hr & Hn & Hl);
    try assumption; try (rewrite H0; lia).
  { now rewrite Ep. }
  rewrite Ep in Hr, Hn. rewrite H0 in Hn.
  rewrite (records_power_on s H0) in Hr.
  repeat split; assumption.
Qed.

(** ** The bounds of the store *)

(** X3. With fewer than [maxReadings] readings stored, storing succeeds
    exactly when the four bytes of the next reading end inside the EEPROM:
    if they do, the reading is written and the count goes up by one; if
    the EEPROM ends before them, the sketch reports the overflow and clears
    [logging], and writes nothing. *)
Theorem store_stops_at_end_of_eeprom (s : state) (t1 t2 : Z) :
  0 <= readingIndex s < maxReadings ->
  (eepromStartAddress + 4 * (readingIndex s + 1) <= EEPROM_length ->
   fst (store s t1 t2) = stored s t1 t2
   /\ readingIndex (fst (store s t1 t2)) = readingIndex s + 1
   /\ persisted_count (fst (store s t1 t2)) = readingIndex s + 1)
  /\ (EEPROM_length < eepromStartAddress + 4 * (readingIndex s + 1) ->
      store s t1 t2
      = (set_logging false s,
         [Println (Str "EEPROM overflow. Stopping logging.")])).
Proof.
  intros Hn. split.
  - intros Hfit. rewrite store_succeeds by assumption.
    destruct (stored_count s t1 t2 Hn) as [Hi Hp].
    split; [reflexivity|]. split; assumption.
  - intros Hno. unfold store_temperatures.
    destruct (Z.ltb_spec (readingIndex s) maxReadings); [|lia].
    rewrite address1_eq, address2_eq, last_byte_eq by lia.
    destruct (Z.ltb_spec (eepromStartAddress + 4 * readingIndex s + 3)
                         EEPROM_length); [lia | reflexivity].
Qed.

(** X4. A reading that is stored changes six bytes of the EEPROM at most:
    the two of the count at address 0 and the four of the index it goes to.
    Every other byte, and with it every reading stored before, reads as
    before; the flags and times in RAM are untouched. *)
Theorem store_writes_only_its_bytes (s : state) (t1 t2 a : Z) :
  0 <= readingIndex s < maxReadings ->
  eepromStartAddress + 4 * (readingIndex s + 1) <= EEPROM_length ->
  let s' := fst (store s t1 t2) in
  (a < 0 \/ 2 <= a < eepromStartAddress + 4 * readingIndex s
   \/ eepromStartAddress + 4 * (readingIndex s + 1) <= a ->
   Eeprom.read (EEPROM s') a = Eeprom.read (EEPROM s) a)
  /\ logging s' = logging s
  /\ previousMillis s' = previousMillis s
  /\ buttonPressStartTime s' = buttonPressStartTime s
  /\ eraseMode s' = eraseMode s.
Proof.
  intros Hn Hfit s'. unfold s'. rewrite store_succeeds by assumption.
  split; [|repeat split].
  intros Ha. unfold stored, eepromStartAddress in *.
  cbn [EEPROM set_EEPROM set_readingIndex].
  now rewrite !read_put_other by lia.
Qed.

(** X5. Erasing writes the bytes of the count and of the region of
    [maxReadings] readings and no other byte of the EEPROM, and it leaves
    [logging] as it is: a session that is running goes on, from index 0. *)
Theorem erase_writes_only_the_store (s : state) (a : Z) :
  let s' := fst (erase (F:=F) s) in
  (a < 0 \/ 2 <= a < eepromStartAddress
   \/ eepromStartAddress + 4 * maxReadings <= a ->
   Eeprom.read (EEPROM s') a = Eeprom.read (EEPROM s) a)
  /\ logging s' = logging s
  /\ previousMillis s' = previousMillis s
  /\ eraseMode s' = true.
Proof.
  intros s'. split; [|repeat split].
  intros Ha. unfold s', erase.
  cbn [fst EEPROM set_EEPROM set_eraseMode set_readingIndex readingIndex].
  unfold eepromStartAddress, maxReadings in Ha.
  rewrite read_put_other by lia.
  change (Z.to_nat (Int.mul maxReadings 4)) with 240%nat.
  rewrite erase_loop_read by (unfold maxReadings; lia).
  unfold eepromStartAddress, maxReadings.
  destruct (Z.leb_spec (4 + 0) a), (Z.ltb_spec a (4 + 4 * 60));
    cbn [andb]; try reflexivity; lia.
Qed.

(** ** Loading past the end of the EEPROM *)

Lemma address_check_wide (i : Z) :
  0 <= i <= 8000 ->
  Int.add eepromStartAddress (Int.mul i 4) = eepromStartAddress + 4 * i
  /\ Int.add (eepromStartAddress + 4 * i) 2 = eepromStartAddress + 4 * i + 2
  /\ Int.to_uint (Int.add (eepromStartAddress + 4 * i + 2) 1)
     = eepromStartAddress + 4 * i + 3.
Proof.
  unfold eepromStartAddress, Int.add, Int.mul. intros Hi.
  rewrite (to_int_id (i * 4)) by (unfold Int.in_range; lia).
  rewrite (to_int_id (4 + i * 4)) by (unfold Int.in_range; lia).
  rewrite (to_int_id (4 + 4 * i + 2)) by (unfold Int.in_range; lia).
  rewrite (to_int_id (4 + 4 * i + 2 + 1)) by (unfold Int.in_range; lia).
  rewrite to_uint_id by lia.
  repeat split; lia.
Qed.

Lemma replay_breaks (s : state) (m : nat) :
  forall (fuel : nat) (i : Z) (a : stats),
    0 <= i ->
    i + Z.of_nat m < readingIndex s ->
    (m < fuel)%nat ->
    EEPROM_length <= 4096 ->
    eepromStartAddress + 4 * (i + Z.of_nat m) <= EEPROM_length ->
    EEPROM_length < eepromStartAddress + 4 * (i + Z.of_nat m + 1) ->
    replay (F:=F) EEPROM_length fuel s i a
    = (scan_stats s i a (records_from (EEPROM s) i m),
       flat_map record_line (records_from (EEPROM s) i m)
       ++ [Println (Str "Invalid EEPROM address.")]).
Proof.
  unfold eepromStartAddress.
  induction m as [|m IH]; intros fuel i a Hi Hn Hf Hmax Hfit Hno;
    (destruct fuel as [|fuel]; [lia|]); cbn [replay].
  - destruct (Z.ltb_spec i (readingIndex s)); [|lia].
    destruct (address_check_wide i ltac:(lia)) as (E1 & E2 & E3).
    rewrite E1, E2, E3. unfold eepromStartAddress.
    destruct (Z.ltb_spec (4 + 4 * i + 3) EEPROM_length); [lia|].
    reflexivity.
  - destruct (Z.ltb_spec i (readingIndex s)); [|lia].
    destruct (address_check_wide i ltac:(lia)) as (E1 & E2 & E3).
    rewrite E1, E2, E3. unfold eepromStartAddress.
    destruct (Z.ltb_spec (4 + 4 * i + 3) EEPROM_length); [|lia].
    replace (Int.add i 1) with (i + 1)
      by (unfold Int.add; rewrite to_int_id;
          [reflexivity | unfold Int.in_range; lia]).
    rewrite IH by lia.
    reflexivity.
Qed.

(** X6. When [readingIndex] counts more readings than the EEPROM (of at
    most 4096 bytes) has room for, with [k] of them inside it, loading
    prints after its heading the lines of the first [k] readings, each the
    first value, a comma and the second value with the end of line, then
    that the address is invalid, and stops scanning: it reads no byte past
    the end.  The report follows, computed from those [k] readings, with
    [readingIndex] as the count of measurements. *)
Theorem load_stops_at_end_of_eeprom (s : state) (k : nat) :
  Z.of_nat k < readingIndex s ->
  EEPROM_length <= 4096 ->
  eepromStartAddress + 4 * Z.of_nat k <= EEPROM_length ->
  EEPROM_length < eepromStartAddress + 4 * (Z.of_nat k + 1) ->
  let rs := records_from (EEPROM s) 0 k in
  let a := scan_stats s 0 stats0 rs in
  load_data EEPROM_length s
  = Println (Str "Loading data...")
    :: (flat_map (fun r => [ Print (Num (fst r));
                             Print (Str ",");
                             Println (Num (snd r)) ]) rs
        ++ [Println (Str "Invalid EEPROM address.")])
    ++ [ Println (Str "Data loading complete.");
             Print (Str "Highest Temperature 1: ");
             Println (Num (highestTemp1 a));
             Print (Str "Average Temperature 1: ");
             Println (Num (avgTemp1 s a));
             Print (Str "Measurements Count 1: ");
             Println (Num (readingIndex s));
             Print (Str "Total Energy Collected 1: ");
             Print (Flt (totalEnergy1 a));
             Println (Str " J");
             Print (Str "Highest Temperature 2: ");
             Println (Num (highestTemp2 a));
             Print (Str "Average Temperature 2: ");
             Println (Num (avgTemp2 s a));
             Print (Str "Measurements Count 2: ");
             Println (Num (readingIndex s));
             Print (Str "Total Energy Collected 2: ");
             Print (Flt (totalEnergy2 a));
             Println (Str " J") ].
Proof.
  intros Hk Hmax Hfit Hno rs a. unfold load_data, scan.
  rewrite (replay_breaks s k) by lia.
  fold rs. fold a. unfold summary.
  destruct (Z.ltb_spec 0 (readingIndex s)); [reflexivity | lia].
Qed.

(** ** Loading after a restart *)

Lemma replay_ext (s s' : state) (fuel : nat) :
  readingIndex s' = readingIndex s ->
  EEPROM s' = EEPROM s ->
  forall (i : Z) (a : stats),
    replay (F:=F) EEPROM_length fuel s' i a
    = replay (F:=F) EEPROM_length fuel s i a.
Proof.
  intros En Ee. induction fuel as [|fuel IH]; intros i a; cbn [replay].
  - reflexivity.
  - rewrite En, Ee. unfold update_stats. rewrite En.
    destruct (i <? readingIndex s); [|reflexivity].
    destruct (Int.to_uint
                (Int.add (Int.add (Int.add eepromStartAddress (Int.mul i 4))
                                  2) 1) <? EEPROM_length); [|reflexivity].
    now rewrite IH.
Qed.

Lemma load_data_ext (s s' : state) :
  readingIndex s' = readingIndex s ->
  EEPROM s' = EEPROM s ->
  load_data EEPROM_length s' = load_data EEPROM_length s.
Proof.
  intros En Ee. unfold load_data, scan.
  rewrite En, (replay_ext s s' _ En Ee).
  destruct (replay EEPROM_length (Z.to_nat (readingIndex s)) s 0 stats0)
    as [a o].
  unfold summary, avgTemp1, avgTemp2. now rewrite En.
Qed.

(** X7. Loading prints the same after a restart as before it, whenever the
    index in RAM is the persisted count, as it is after every stored
    reading and after an erase: the flags, the times and the index in RAM
    are lost, and [setup] reads the index back from address 0. *)
Theorem restart_preserves_load (s : state) :
  readingIndex s = persisted_count s ->
  load_data EEPROM_length (restart (F:=F) s) = load_data EEPROM_length s
  /\ logging (restart (F:=F) s) = false
  /\ readingIndex (restart (F:=F) s) = readingIndex s.
Proof.
  intros Hp.
  assert (En : readingIndex (restart (F:=F) s) = readingIndex s)
    by (rewrite Hp; reflexivity).
  split; [|split; [reflexivity | exact En]].
  apply load_data_ext; [exact En | reflexivity].
Qed.

(** ** Presses of the load button *)



(** ** The sampling period *)




(** ** Presses of the toggle button *)





(** ** A device never written *)

(** X12. On an EEPROM whose two count bytes are 0xFF, as on a device never
    written, [setup] comes up with [readingIndex] at -1 and not logging;
    loading then prints only that there is no data, and no index has a
    reading. *)
Theorem unwritten_eeprom_has_no_data (e : Eeprom.t) (i : Z) :
  Eeprom.read e 0 = 255 ->
  Eeprom.read e 1 = 255 ->
  let s := fst (setup (F:=F) e) in
  readingIndex s = -1
  /\ logging s = false
  /\ load_data EEPROM_length s
     = [Println (Str "Loading data..."); Println (Str "No data to load.")]
  /\ get EEPROM_length s i = None.
Proof.
  intros E0 E1 s.
  assert (En : readingIndex s = -1).
  { unfold s, setup. cbn [fst readingIndex set_readingIndex].
    unfold Eeprom.get_int. change (0 + 1) with 1.
    rewrite E0, E1. reflexivity. }
  split; [exact En|]. split; [reflexivity|]. split.
  - unfold load_data, scan, summary. rewrite En. reflexivity.
  - unfold get. rewrite En.
    destruct (Z.leb_spec 0 i), (Z.ltb_spec i (-1)); cbn [andb];
      try reflexivity. lia.
Qed.

(** ** A discarded reading ends the pass *)

(** X13. A pass of [loop] whose reading the anomaly check discards ends
    there: whatever the load button and the clock read on that pass, the
    state is the one after the toggle step with the sampling time set, the
    output ends with the diagnostic, and nothing is loaded or erased. *)
Theorem discarded_reading_ends_pass (i : input) (s : state) :
  let '(s1, o1) := toggle_button (F:=F) (togglePin i) s in
  logging s1 = true ->
  readDelay <= Int.to_ulong (currentMillis i - previousMillis s1) ->
  0 < analogValue1 i -> 0 < analogValue2 i ->
  anomalous s1 (Int.to_int (fahrenheit1 (analogValue1 i)))
            (Int.to_int (fahrenheit2 (analogValue2 i))) = true ->
  loop fahrenheit1 fahrenheit2 EEPROM_length i s
  = (set_previousMillis (currentMillis i) s1,
     o1 ++ [Println (Str "Anomalous reading detected, discarding...")]).
Proof.
  unfold loop.
  destruct (toggle_button (F:=F) (togglePin i) s) as [s1 o1].
  intros Hl Hd H1 H2 Ha.
  rewrite sample_due by assumption.
  unfold log_reading. rewrite anomalous_previousMillis, Ha.
  reflexivity.
Qed.

(** ** The report after an early stop *)

Lemma scan_last_unreached (s : state) (rs : list (Z * Z)) :
  forall (i : Z) (a : stats),
    0 <= i ->
    i + Z.of_nat (List.length rs) < readingIndex s ->
    readingIndex s <= 32767 ->
    lastTemp1 (scan_stats s i a rs) = lastTemp1 a
    /\ lastTemp2 (scan_stats s i a rs) = lastTemp2 a.
Proof.
  induction rs as [|r rs IH]; intros i a Hi Hn Hmax; cbn [scan_stats].
  - split; reflexivity.
  - cbn [List.length] in Hn.
    destruct (IH (i + 1) (update_stats s i (fst r) (snd r) a)) as [E1 E2];
      try lia.
    rewrite E1, E2. unfold update_stats. cbn [lastTemp1 lastTemp2].
    unfold Int.sub. rewrite to_int_id by (unfold Int.in_range; lia).
    destruct (Z.eqb_spec i (readingIndex s - 1)); [lia|].
    split; reflexivity.
Qed.

(** X14. When loading stops at the end of the EEPROM before the last
    counted reading, the summary still reports [readingIndex] as the number
    of measurements, and the last temperature it computes the energy from
    was never read: it is the initial 0 on both channels. *)
Theorem early_stop_reports_last_as_zero (s : state) (k : nat) :
  Z.of_nat k < readingIndex s ->
  readingIndex s <= 32767 ->
  EEPROM_length <= 4096 ->
  eepromStartAddress + 4 * Z.of_nat k <= EEPROM_length ->
  EEPROM_length < eepromStartAddress + 4 * (Z.of_nat k + 1) ->
  let a := fst (scan (F:=F) EEPROM_length s) in
  lastTemp1 a = 0
  /\ lastTemp2 a = 0
  /\ In (Println (Num (readingIndex s))) (summary s a)
  /\ totalEnergy1 a
     = fmul (fmul specificHeatCapacityAir massAir)
            (of_int (Int.abs (Int.sub 0 (firstTemp1 a)))).
Proof.
  intros Hk Hmax Hlen Hfit Hno a.
  assert (Ea : a = scan_stats s 0 stats0 (records_from (EEPROM s) 0 k)).
  { unfold a, scan. now rewrite (replay_breaks s k) by lia. }
  destruct (scan_last_unreached s (records_from (EEPROM s) 0 k) 0 stats0)
    as [L1 L2]; try lia.
  { rewrite records_from_length. lia. }
  rewrite <- Ea in L1, L2. cbn [lastTemp1 lastTemp2 stats0] in L1, L2.
  split; [exact L1|]. split; [exact L2|]. split.
  - unfold summary. destruct (Z.ltb_spec 0 (readingIndex s)); [|lia].
    do 6 right. left. reflexivity.
  - unfold totalEnergy1, tempDiff1. now rewrite L1.
Qed.

End Further.

(** ** The further properties on concrete stores *)

Lemma session_stores_kept_readings_witness :
  records (fst (log_all (F:=Q) 1024
                        [(70, 72); (74, 76); (200, 76); (77, 79)]
                        Demo.session))
  = [(70, 72); (74, 76); (77, 79)].
Proof.
  assert (H0 : readingIndex Demo.session = 0) by evaluate.
  assert (Hc : Z.of_nat (List.length [(70, 72); (74, 76); (200, 76); (77, 79)])
               <= maxReadings) by evaluate.
  assert (Hf : eepromStartAddress
               + 4 * Z.of_nat (List.length
                                 [(70, 72); (74, 76); (200, 76); (77, 79)])
               <= 1024) by evaluate.
  assert (Hs : Forall small_pair [(70, 72); (74, 76); (200, 76); (77, 79)])
    by (repeat constructor; evaluate).
  exact (proj1 (session_stores_kept_readings (F:=Q) 1024 Demo.session
                  [(70, 72); (74, 76); (200, 76); (77, 79)] H0 Hc Hf Hs)).
Defined.

Lemma store_stops_at_end_of_eeprom_witness :
  store_temperatures (F:=Q) 16 Demo.logged 80 81
  = (set_logging false Demo.logged,
     [Println (Str "EEPROM overflow. Stopping logging.")])
  /\ readingIndex (fst (store_temperatures (F:=Q) 1024 Demo.logged 80 81)) = 4.
Proof.
  assert (Hn : 0 <= readingIndex Demo.logged < maxReadings) by evaluate.
  split.
  - apply (proj2 (store_stops_at_end_of_eeprom (F:=Q) 16 Demo.logged 80 81
                    Hn)).
    evaluate.
  - assert (Hf : eepromStartAddress + 4 * (readingIndex Demo.logged + 1)
                 <= 1024) by evaluate.
    exact (proj1 (proj2 (proj1 (store_stops_at_end_of_eeprom (F:=Q) 1024
                                  Demo.logged 80 81 Hn) Hf))).
Defined.

Lemma store_writes_only_its_bytes_witness :
  Eeprom.read
    (EEPROM (fst (store_temperatures (F:=Q) 1024 Demo.logged 80 81))) 8
  = Eeprom.read (EEPROM Demo.logged) 8.
Proof.
  assert (Hn : 0 <= readingIndex Demo.logged < maxReadings) by evaluate.
  assert (Hf : eepromStartAddress + 4 * (readingIndex Demo.logged + 1)
               <= 1024) by evaluate.
  apply (proj1 (store_writes_only_its_bytes (F:=Q) 1024 Demo.logged 80 81 8
                  Hn Hf)).
  right. left. evaluate.
Defined.

Lemma load_stops_at_end_of_eeprom_witness :
  firstn 4 (load_data (F:=Q) 1024 Demo.overcount)
  = [ Println (Str "Loading data...");
      Print (Num (-1)); Print (Str ","); Println (Num (-1)) ]
  /\ firstn 2 (skipn (1 + 3 * 255) (load_data (F:=Q) 1024 Demo.overcount))
     = [ Println (Str "Invalid EEPROM address.");
         Println (Str "Data loading complete.") ].
Proof.
  assert (Hk : Z.of_nat 255 < readingIndex Demo.overcount) by evaluate.
  assert (Hm : 1024 <= 4096) by evaluate.
  assert (Hf : eepromStartAddress + 4 * Z.of_nat 255 <= 1024) by evaluate.
  assert (Hn : 1024 < eepromStartAddress + 4 * (Z.of_nat 255 + 1))
    by evaluate.
  pose proof (load_stops_at_end_of_eeprom (F:=Q) 1024 Demo.overcount 255
                Hk Hm Hf Hn) as W.
  cbv zeta in W. rewrite W.
  split; vm_compute; reflexivity.
Defined.

Lemma restart_preserves_load_witness :
  load_data (F:=Q) 1024 (restart (F:=Q) Demo.logged)
  = load_data (F:=Q) 1024 Demo.logged.
Proof.
  assert (Hp : readingIndex Demo.logged = persisted_count Demo.logged)
    by evaluate.
  exact (proj1 (restart_preserves_load (F:=Q) 1024 Demo.logged Hp)).
Defined.





Lemma unwritten_eeprom_has_no_data_witness :
  readingIndex (fst (setup (F:=Q) Demo.blank)) = -1
  /\ get 1024 (fst (setup (F:=Q) Demo.blank)) 0 = None.
Proof.
  assert (E0 : Eeprom.read Demo.blank 0 = 255) by evaluate.
  assert (E1 : Eeprom.read Demo.blank 1 = 255) by evaluate.
  pose proof (unwritten_eeprom_has_no_data (F:=Q) 1024 Demo.blank 0 E0 E1)
    as W.
  cbv zeta in W. destruct W as (Wn & _ & _ & Wg).
  split; [exact Wn | exact Wg].
Defined.

Lemma discarded_reading_ends_pass_witness :
  EEPROM (fst (loop (F:=Q) (fun _ => 200) (fun _ => 76) 1024
                    (mkInput HIGH 200000 512 512 LOW 200000 206000 0)
                    Demo.pressed))
  = EEPROM Demo.pressed.
Proof.
  pose proof (discarded_reading_ends_pass (F:=Q) (fun _ => 200) (fun _ => 76)
                1024 (mkInput HIGH 200000 512 512 LOW 200000 206000 0)
                Demo.pressed) as W.
  cbn [togglePin currentMillis analogValue1 analogValue2] in W.
  destruct (toggle_button (F:=Q) HIGH Demo.pressed) as [s1 o1] eqn:Et.
  assert (E1 : EEPROM s1 = EEPROM Demo.pressed).
  { change s1 with (fst (s1, o1)). rewrite <- Et.
    apply toggle_keeps_EEPROM. }
  assert (Es : s1 = fst (toggle_button (F:=Q) HIGH Demo.pressed))
    by (now rewrite Et).
  rewrite W.
  - exact E1.
  - rewrite Es. evaluate.
  - rewrite Es. evaluate.
  - evaluate.
  - evaluate.
  - rewrite Es. evaluate.
Defined.

Lemma early_stop_reports_last_as_zero_witness :
  lastTemp1 (fst (scan (F:=Q) 1024 Demo.overcount)) = 0.
Proof.
  apply (early_stop_reports_last_as_zero (F:=Q) 1024 Demo.overcount 255);
    evaluate.
Defined.

Lemma erase_writes_only_the_store_witness :
  Eeprom.read (EEPROM (fst (erase (F:=Q) Demo.pressed))) 300
  = Eeprom.read (EEPROM Demo.pressed) 300
  /\ logging (fst (erase (F:=Q) Demo.pressed)) = logging Demo.pressed.
Proof.
  pose proof (erase_writes_only_the_store (F:=Q) Demo.pressed 300) as W.
  cbv zeta in W. destruct W as (Wr & Wl & _).
  split; [|exact Wl].
  apply Wr. right. right. evaluate.
Defined.
